(** * The boxing ring: a shallow embedding of [boxing/models/ring_model.py]

    The development follows the Python package file by file:
    - [boxers_model]: the [Boxer] dataclass and the [boxers] table with
      [update_boxer_stats];
    - [api_utils]: the random.org client [get_random];
    - [ring_model]: the [RingModel] class ([fight], [clear_ring],
      [enter_ring], [get_boxers], [get_fighting_skill]).

    Python [float]s are IEEE 754 binary64 values and are modelled by Rocq's
    primitive floats; Python [int]s are unbounded and are modelled by [Z].
    Exceptions are values of [exn]; a call that may raise returns a
    [result] together with the state it left behind. *)

From Stdlib Require Import ZArith Ascii String List Bool Lia Floats.
From stdpp Require Import gmap pretty.
Import ListNotations.

Local Open Scope string_scope.
Local Open Scope Z_scope.

(** ** Exceptions and results *)

Inductive exn : Type :=
| TypeError (msg : string)
| ValueError (msg : string)
| RuntimeError (msg : string)
| OverflowError (msg : string)
| sqlite3_Error (msg : string).

Inductive result (A : Type) : Type :=
| Ok (a : A)
| Raise (e : exn).
Arguments Ok {A} a.
Arguments Raise {A} e.

(** A computation over a mutable state [S]: it returns a value or raises,
    and in both cases leaves a state behind (an exception does not roll
    anything back). *)
Definition M (S A : Type) : Type := S -> result A * S.

Definition ret {S A} (a : A) : M S A := fun s => (Ok a, s).
Definition raise {S A} (e : exn) : M S A := fun s => (Raise e, s).
Definition bind {S A B} (m : M S A) (k : A -> M S B) : M S B :=
  fun s => match m s with
           | (Ok a, s') => k a s'
           | (Raise e, s') => (Raise e, s')
           end.

(** A call that touches no state: it returns or raises, and that is all. *)
Definition lift {S A} (r : result A) : M S A := fun s => (r, s).

Declare Scope py_scope.
Delimit Scope py_scope with py.
Notation "'do' x <- m ; k" := (bind m (fun x => k))
  (at level 10, x name, m at level 100, k at level 200) : py_scope.
Notation "'run' m ; k" := (bind m (fun _ => k))
  (at level 10, m at level 100, k at level 200) : py_scope.

(** ** Python numbers *)

(** [int] to [float] conversion, as performed when an [int] meets a [float]
    in an arithmetic expression: the nearest binary64 value, ties to even.
    An integer whose nearest value is beyond the largest finite one (from
    [2^1024 - 2^970] on, about [1.8e308]) is not converted: CPython raises
    [OverflowError]. *)
Definition float_of_int (z : Z) : result float :=
  match binary_normalize prec emax z 0 false with
  | S754_infinity _ => Raise (OverflowError "int too large to convert to float")
  | f => Ok (SF2Prim f)
  end.

(** [math.e] *)
Definition math_e : float := 0x1.5bf0a8b145769p+1%float.

(** [math.e ** w].  CPython's [float_pow] settles the special exponents
    itself ([v ** 0] is [1.0]; a NaN exponent gives NaN; for a base above
    one, [+inf] gives [inf] and [-inf] gives [0.0]) and hands every other
    exponent to the C library's [pow], which is platform code: it is the
    parameter [libm_pow].  An underflowing result is returned silently. *)
Definition float_pow_e (libm_pow : float -> float -> float) (w : float) : float :=
  if (w =? 0)%float then 1%float
  else if is_nan w then w
  else if is_infinity w then (if (0 <? w)%float then abs w else 0%float)
  else libm_pow math_e w.

(** Binary64 values through their specification ([Prim2SF]): one, one
    half, and the values of a closed binade [[2^(e+52), 2^(e+53)]]. *)
Definition SF_one : spec_float := S754_finite false 4503599627370496 (-52).
Definition SF_half : spec_float := S754_finite false 4503599627370496 (-53).

Definition in_binade (e : Z) (f : spec_float) : Prop :=
  (exists m : positive,
      f = S754_finite false m e /\ 4503599627370496 <= Z.pos m < 9007199254740992)
  \/ f = S754_finite false 4503599627370496 (e + 1).

(** ** boxing/models/boxers_model.py *)

Module boxers_model.

Record Boxer : Type := mkBoxer {
  id : Z;
  name : string;
  weight : Z;
  height : Z;
  reach : float;
  age : Z;
  weight_class : string
}.

Definition get_weight_class (weight : Z) : result string :=
  if 203 <=? weight then Ok "HEAVYWEIGHT"
  else if 166 <=? weight then Ok "MIDDLEWEIGHT"
  else if 133 <=? weight then Ok "LIGHTWEIGHT"
  else if 125 <=? weight then Ok "FEATHERWEIGHT"
  else Raise (ValueError ("Invalid weight: " +:+ pretty weight
                     +:+ ". Weight must be at least 125.")).

(** The dataclass constructor: [__init__] followed by [__post_init__],
    which derives the weight class and so rejects weights under 125. *)
Definition Boxer_init (id : Z) (name : string) (weight height : Z)
    (reach : float) (age : Z) : result Boxer :=
  match get_weight_class weight with
  | Ok wc => Ok (mkBoxer id name weight height reach age wc)
  | Raise e => Raise e
  end.

(** A row of the [boxers] table, keyed by its primary key [id]; only the
    two counters matter to [update_boxer_stats]. *)
Record Row : Type := mkRow { fights : Z; wins : Z }.

Definition Table : Type := gmap Z Row.

(** [update_boxer_stats(boxer_id, result)].  [conn] is what
    [get_db_connection()] yields: [Some msg] when opening the database
    fails with [sqlite3.Error(msg)]. *)
Definition update_boxer_stats (conn : option string)
    (boxer_id : Z) (result_ : string) : M Table unit :=
  if negb (String.eqb result_ "win" || String.eqb result_ "loss") then
    raise (ValueError ("Invalid result: " +:+ result_
                       +:+ ". Expected 'win' or 'loss'."))
  else
    match conn with
    | Some msg => raise (sqlite3_Error msg)
    | None =>
        fun tbl =>
          match tbl !! boxer_id with
          | None => (Raise (ValueError ("Boxer with ID " +:+ pretty boxer_id
                                        +:+ " not found.")), tbl)
          | Some row =>
              if String.eqb result_ "win" then
                (Ok tt, <[boxer_id := mkRow (fights row + 1) (wins row + 1)]> tbl)
              else
                (Ok tt, <[boxer_id := mkRow (fights row + 1) (wins row)]> tbl)
          end
    end.

(** [delete_boxer(boxer_id)]: the row is looked up by its key and deleted;
    no other column is read, so the rows may be of any type. *)
Definition delete_boxer {R : Type} (conn : option string) (boxer_id : Z)
  : M (gmap Z R) unit :=
  match conn with
  | Some msg => raise (sqlite3_Error msg)
  | None =>
      fun tbl =>
        match tbl !! boxer_id with
        | None => (Raise (ValueError ("Boxer with ID " +:+ pretty boxer_id
                                      +:+ " not found.")), tbl)
        | Some _ => (Ok tt, delete boxer_id tbl)
        end
  end.

(** A row with all its columns: the attributes next to the counters. *)
Record BoxerRow : Type := mkBoxerRow {
  row_name : string;
  row_weight : Z;
  row_height : Z;
  row_reach : float;
  row_age : Z;
  row_counters : Row
}.


(** [str.isspace] on the characters below 256 (a [string] is read as the
    sequence of the name's code points). *)
Definition isspace (c : ascii) : bool :=
  let n := nat_of_ascii c in
  ((9 <=? n) && (n <=? 13) || (28 <=? n) && (n <=? 32) || (n =? 133) || (n =? 160))%nat.

(** [not name.strip()]: nothing is left once the whitespace is stripped. *)
Fixpoint strip_is_empty (s : string) : bool :=
  match s with
  | EmptyString => true
  | String c s' => isspace c && strip_is_empty s'
  end.

(** What the [INSERT] of [create_boxer] comes to.  The schema of the
    table (how ids are given, its defaults and its constraints) is not part
    of these sources: the insertion is a parameter of [create_boxer]. *)
Inductive insert_outcome (T : Type) : Type :=
| Inserted (tbl : T)
| IntegrityError
| OtherError (msg : string).
Arguments Inserted {T} tbl.
Arguments IntegrityError {T}.
Arguments OtherError {T} msg.

(** [create_boxer(name, weight, height, reach, age)].  [float_repr] is
    Python's formatting of a [float] in an f-string. *)
Definition create_boxer (float_repr : float -> string)
    (sql_insert : string -> Z -> Z -> float -> Z -> gmap Z BoxerRow
                  -> insert_outcome (gmap Z BoxerRow))
    (conn : option string)
    (name : string) (weight height : Z) (reach : float) (age : Z)
  : M (gmap Z BoxerRow) unit :=
  if strip_is_empty name then
    raise (ValueError "Invalid boxer name: must be a non-empty string.")
  else if weight <? 125 then
    raise (ValueError ("Invalid weight: " +:+ pretty weight +:+ ". Must be at least 125."))
  else if height <=? 0 then
    raise (ValueError ("Invalid height: " +:+ pretty height
                       +:+ ". Must be greater than 0."))
  else if (reach <=? 0)%float then
    raise (ValueError ("Invalid reach: " +:+ float_repr reach
                       +:+ ". Must be greater than 0."))
  else if negb ((18 <=? age) && (age <=? 40)) then
    raise (ValueError ("Invalid age: " +:+ pretty age
                       +:+ ". Must be between 18 and 40."))
  else
    match conn with
    | Some msg => raise (sqlite3_Error msg)
    | None =>
        fun tbl =>
          if bool_decide (map_Exists (fun _ row => row_name row = name) tbl) then
            (Raise (ValueError ("Boxer with name '" +:+ name +:+ "' already exists")), tbl)
          else
            match sql_insert name weight height reach age tbl with
            | Inserted tbl' => (Ok tt, tbl')
            | IntegrityError =>
                (Raise (ValueError ("Boxer with name '" +:+ name
                                    +:+ "' already exists")), tbl)
            | OtherError msg => (Raise (sqlite3_Error msg), tbl)
            end
    end.

(** The fields that pass the five checks of [create_boxer]. *)
Definition create_boxer_accepts (name : string) (weight height : Z)
    (reach : float) (age : Z) : bool :=
  negb (strip_is_empty name) && (125 <=? weight) && (0 <? height)
  && negb (reach <=? 0)%float && (18 <=? age) && (age <=? 40).

(** Counters that make sense: no more wins than fights, none negative. *)
Definition counters_consistent (tbl : Table) : Prop :=
  forall (boxer_id : Z) (row : Row),
    tbl !! boxer_id = Some row -> 0 <= wins row <= fights row.

End boxers_model.

(** ** boxing/utils/api_utils.py *)

Module api_utils.

(** What [requests.get(url, timeout=5)] followed by [raise_for_status()]
    and [float(response.text.strip())] can come to: a timeout; any other
    [RequestException] (connection failure, HTTP error status); or a body,
    given with its stripped text and with the number [float()] reads from
    it, if any. *)
Inductive http_reply : Type :=
| Timeout
| RequestException (e : string)
| Response (text : string) (parsed : option float).

(** The network as [get_random] sees it: the URLs requested so far and the
    replies random.org has in store for the requests to come. *)
Record Net : Type := mkNet { requested : list string; pending : list http_reply }.

Definition url_of (max : Z) : string :=
  "https://www.random.org/integers/?num=1&min=1&col=1&base=10&format=plain&rnd=new&max="
    +:+ pretty max.

(** [def get_random(max: int) -> float].  The function is called with the
    list of positional arguments of the call site; binding them to the
    single parameter [max] fails with [TypeError] unless there is exactly
    one. *)
Definition get_random (args : list Z) : M Net float :=
  match args with
  | [] => raise (TypeError "get_random() missing 1 required positional argument: 'max'")
  | [max] =>
      fun net =>
        let sent := (requested net ++ [url_of max])%list in
        match pending net with
        | [] | Timeout :: _ =>
            (Raise (RuntimeError "Request to random.org timed out."),
             mkNet sent (tail (pending net)))
        | RequestException e :: rest =>
            (Raise (RuntimeError ("Request to random.org failed: " +:+ e)),
             mkNet sent rest)
        | Response text None :: rest =>
            (Raise (ValueError ("Invalid response from random.org: " +:+ text)),
             mkNet sent rest)
        | Response _ (Some random_number) :: rest =>
            (Ok random_number, mkNet sent rest)
        end
  | _ => raise (TypeError ("get_random() takes 1 positional argument but "
                           +:+ pretty (Z.of_nat (length args)) +:+ " were given"))
  end.

End api_utils.

(** ** boxing/models/ring_model.py *)

Module ring_model.
Import boxers_model.

(** A Python value as [enter_ring] may receive it: a [Boxer] instance, or
    an object of another type (known by its type's [__name__]). *)
Inductive pyobj : Type :=
| PyBoxer (b : Boxer)
| PyOther (type_name : string).

Section RingModel.
(** The module-level names [fight] resolves when it runs: [get_random]
    and [update_boxer_stats], acting on the world [W] outside the ring
    (network, database), and the C library's [pow] under [**]. *)
Context {W : Type}.
Variable get_random : list Z -> M W float.
Variable update_boxer_stats : Z -> string -> M W unit.
Variable libm_pow : float -> float -> float.

(** [self.ring] together with the world outside. *)
Definition State : Type := list Boxer * W.

Definition get_ring : M State (list Boxer) := fun s => (Ok (fst s), s).
Definition set_ring (r : list Boxer) : M State unit := fun s => (Ok tt, (r, snd s)).
Definition outside {A} (m : M W A) : M State A :=
  fun s => let '(a, w) := m (snd s) in (a, (fst s, w)).

Definition RingModel_init (w : W) : State := ([], w).

(** [get_fighting_skill].  The product [weight * len(name)] is an [int];
    adding the [float] [reach / 10] converts it, and adding the age
    modifier to the sum converts that one: either conversion may raise. *)
Definition get_fighting_skill (boxer : Boxer) : result float :=
  let age_modifier := if age boxer <? 25 then -1 else (if 35 <? age boxer then -2 else 0) in
  match float_of_int (weight boxer * Z.of_nat (String.length (name boxer))) with
  | Raise e => Raise e
  | Ok product =>
      match float_of_int age_modifier with
      | Raise e => Raise e
      | Ok modifier => Ok (product + reach boxer / 10 + modifier)%float
      end
  end.

(** [get_boxers]: both branches of its emptiness test are [pass]; it
    hands out [self.ring] itself, whatever its length.  (The caller gets
    the list object of the ring, not a copy; what a caller does to that
    object afterwards is outside the four methods modelled here.) *)
Definition get_boxers : M State (list Boxer) :=
  (do ring <- get_ring;
   run (if negb (0 <? length ring)%nat then ret tt else ret tt);
   ret ring)%py.

(** [boxer_1, boxer_2 = ...]: unpacking into two targets. *)
Definition unpack2 (l : list Boxer) : M State (Boxer * Boxer) :=
  match l with
  | [boxer_1; boxer_2] => ret (boxer_1, boxer_2)
  | [] | [_] =>
      raise (ValueError ("not enough values to unpack (expected 2, got "
                         +:+ pretty (Z.of_nat (length l)) +:+ ")"))
  | _ => raise (ValueError "too many values to unpack (expected 2)")
  end.

Definition clear_ring : M State unit :=
  (do ring <- get_ring;
   if negb (0 <? length ring)%nat then ret tt
   else set_ring [])%py.

(** [fight].  A skill that cannot be computed ends the fight before the
    draw.  The division [1 / (1 + math.e ** (-delta))] is the binary64
    one: Python would raise [ZeroDivisionError] on a zero divisor, which
    [1 + math.e ** (-delta)] is only if [pow] returned minus one. *)
Definition fight : M State string :=
  (do ring <- get_ring;
   if (length ring <? 2)%nat then
     raise (ValueError "There must be two boxers to start a fight.")
   else
     do boxers <- get_boxers;
     do pair <- unpack2 boxers;
     let boxer_1 := fst pair in
     let boxer_2 := snd pair in
     do skill_1 <- lift (get_fighting_skill boxer_1);
     do skill_2 <- lift (get_fighting_skill boxer_2);
     let delta := abs (skill_1 - skill_2)%float in
     let normalized_delta := (1 / (1 + float_pow_e libm_pow (- delta)))%float in
     do random_number <- outside (get_random []);
     let outcome := if (random_number <? normalized_delta)%float
                    then (boxer_1, boxer_2) else (boxer_2, boxer_1) in
     let winner := fst outcome in
     let loser := snd outcome in
     run outside (update_boxer_stats (id winner) "win");
     run outside (update_boxer_stats (id loser) "loss");
     run clear_ring;
     ret (name winner))%py.

Definition enter_ring (boxer : pyobj) : M State unit :=
  match boxer with
  | PyOther type_name =>
      raise (TypeError ("Invalid type: Expected 'Boxer', got '" +:+ type_name +:+ "'"))
  | PyBoxer b =>
      (do ring <- get_ring;
       if (2 <=? length ring)%nat then
         raise (ValueError "Ring is full, cannot add more boxers.")
       else set_ring (ring ++ [b])%list)%py
  end.

(** *** Sequences of calls on one [RingModel] *)

Inductive call : Type :=
| call_enter_ring (boxer : pyobj)
| call_get_boxers
| call_fight
| call_clear_ring.

(** A caller that goes on after an exception: only the state matters. *)
Definition exec (c : call) (s : State) : State :=
  match c with
  | call_enter_ring boxer => snd (enter_ring boxer s)
  | call_get_boxers => snd (get_boxers s)
  | call_fight => snd (fight s)
  | call_clear_ring => snd (clear_ring s)
  end.

Definition exec_all (cs : list call) (s : State) : State :=
  fold_left (fun st c => exec c st) cs s.
End RingModel.
End ring_model.

(** ** tests/test_ring_model.py: fixtures and test doubles *)

Module test_ring_model.
Import boxers_model.

#[local] Set Warnings "-inexact-float".

(** [Boxer(1, "Boxer One", 150, 62, 10.9, 18)] *)
Definition sample_boxer1 : Boxer :=
  mkBoxer 1 "Boxer One" 150 62 10.9%float 18 "LIGHTWEIGHT".

(** [Boxer(2, "Boxer Two", 220, 52, 18.0, 20)] *)
Definition sample_boxer2 : Boxer :=
  mkBoxer 2 "Boxer Two" 220 52 18.0%float 20 "HEAVYWEIGHT".

(** The value the test expects of [get_fighting_skill(sample_boxer1)]. *)
Definition expected_skill1 : float := 1350.09%float.

(** The skill of the second fixture: 220 * 9 + 18.0 / 10 - 1. *)
Definition expected_skill2 : float := 1980.8%float.

Definition sample_ring : list Boxer := [sample_boxer1; sample_boxer2].

(** [mocker.patch("boxing.models.ring_model.update_boxer_stats")]: a mock
    that records the arguments of each call and returns. *)
Definition mock_update_boxer_stats (boxer_id : Z) (result_ : string)
  : M (list (Z * string)) unit :=
  fun calls => (Ok tt, (calls ++ [(boxer_id, result_)])%list).

(** A stand-in for [get_random] that returns a fixed draw, whatever its
    arguments (the tests themselves do not patch [get_random]). *)
Definition patched_get_random {W : Type} (draw : float) (args : list Z) : M W float :=
  ret draw.

(** Two contestants of equal skill (the scenario of the specification's
    section 8): a second boxer with the attributes of the first. *)
Definition sample_twin : Boxer :=
  mkBoxer 3 "Boxer Uno" 150 62 10.9%float 18 "LIGHTWEIGHT".

(** A boxer the dataclass accepts whose weight has no binary64 value:
    [Boxer(9, "A", 2**1024, 70, 70.0, 30)]. *)
Definition heavy_boxer : Boxer :=
  mkBoxer 9 "A" (2 ^ 1024) 70 70%float 30 "HEAVYWEIGHT".

(** The draws of that scenario. *)
Definition draw_low : float := 0.4%float.
Definition draw_high : float := 0.6%float.

(** A stand-in for the C library's [pow] that underflows to zero. *)
Definition pow_underflow (v w : float) : float := 0%float.
End test_ring_model.

(** ** The world of the deployed program *)

(** The network and the [boxers] table, with [get_random] and
    [update_boxer_stats] acting each on its part. *)
Module deployed.
Record World : Type := mkWorld { net : api_utils.Net; boxers : boxers_model.Table }.

Definition get_random (args : list Z) : M World float :=
  fun w => let '(r, n) := api_utils.get_random args (net w) in (r, mkWorld n (boxers w)).

Definition update_boxer_stats (conn : option string) (boxer_id : Z) (result_ : string)
  : M World unit :=
  fun w => let '(r, t) := boxers_model.update_boxer_stats conn boxer_id result_ (boxers w) in
           (r, mkWorld (net w) t).
End deployed.

(** ** The specification's vocabulary *)

Module spec.
Import boxers_model ring_model.

(** "ageModifier = -1 if age < 25, -2 if age > 35, else 0" *)
Definition ageModifier (age : Z) : Z :=
  if Z_lt_dec age 25 then -1 else if Z_lt_dec 35 age then -2 else 0.

(** "valid Contestant (non-empty name, weight >= 125, positive height and
    reach, age between 18 and 40)" *)
Definition valid_contestant (c : Boxer) : Prop :=
  name c <> "" /\ 125 <= weight c /\ 0 < height c /\ (0 <? reach c)%float = true
  /\ 18 <= age c <= 40.

(** "delta = |skill1 - skill2|; p = 1 / (1 + e^(-delta))", in binary64. *)
Definition logistic (libm_pow : float -> float -> float) (delta : float) : float :=
  (1 / (1 + float_pow_e libm_pow (- delta)))%float.

Definition win_probability (libm_pow : float -> float -> float)
    (skill1 skill2 : float) : float :=
  logistic libm_pow (abs (skill1 - skill2)).

(** "a logistic normalization of the skill gap into the open interval
    (0.5, 1.0) for delta > 0, exactly 0.5 at delta = 0" *)
Definition logistic_in_open_interval (libm_pow : float -> float -> float)
    (skill1 skill2 : float) : Prop :=
  let delta := abs (skill1 - skill2) in
  let p := logistic libm_pow delta in
  ((0 <? delta)%float = true -> (0.5 <? p)%float = true /\ (p <? 1)%float = true)
  /\ ((delta =? 0)%float = true -> p = 0.5%float).

(** Steps 7 to 9 of resolveContest: record the win, then the loss; a
    failure of either call propagates and leaves the pool as it is; after
    both, the pool is reset and the winner's name returned. *)
Definition record_outcome {W : Type} (update_boxer_stats : Z -> string -> M W unit)
    (winner loser : Boxer) : M (State (W := W)) string :=
  fun s =>
    match update_boxer_stats (id winner) "win" (snd s) with
    | (Raise e, w1) => (Raise e, (fst s, w1))
    | (Ok _, w1) =>
        match update_boxer_stats (id loser) "loss" w1 with
        | (Raise e, w2) => (Raise e, (fst s, w2))
        | (Ok _, w2) => (Ok (name winner), ([], w2))
        end
    end.

Definition InsufficientContestantsKind : exn :=
  ValueError "There must be two boxers to start a fight.".
Definition EmptyKind : exn := ValueError "Ring is empty".
Definition ArityError : exn :=
  TypeError "get_random() missing 1 required positional argument: 'max'".

(** What Python raises when an [int] has no [float] value. *)
Definition ConversionError : exn := OverflowError "int too large to convert to float".
End spec.

(** * Properties *)

Import boxers_model ring_model.

(** ** Binary64 arithmetic around one

    Rounding facts read off the specification of the primitive floats:
    what [1 + x] and [1 / (1 + x)] can be for [x] between zero and one. *)

Lemma digits2_pos_bounds (p : positive) :
  2 ^ (Z.pos (digits2_pos p) - 1) <= Z.pos p < 2 ^ Z.pos (digits2_pos p).
Proof.
  induction p as [p IH | p IH |]; cbn [digits2_pos].
  - rewrite Pos2Z.inj_succ.
    replace (Z.succ (Z.pos (digits2_pos p)) - 1) with (Z.succ (Z.pos (digits2_pos p) - 1)) by lia.
    rewrite !Z.pow_succ_r by lia. lia.
  - rewrite Pos2Z.inj_succ.
    replace (Z.succ (Z.pos (digits2_pos p)) - 1) with (Z.succ (Z.pos (digits2_pos p) - 1)) by lia.
    rewrite !Z.pow_succ_r by lia. lia.
  - cbn. lia.
Qed.

Lemma digits2_pos_unique (p : positive) (d : Z) :
  2 ^ (d - 1) <= Z.pos p < 2 ^ d -> Z.pos (digits2_pos p) = d.
Proof.
  intros [Hlo Hhi].
  pose proof (digits2_pos_bounds p) as [Blo Bhi].
  assert (0 < d).
  { destruct (Z.ltb_spec 0 d); [lia|]. exfalso.
    assert (2 ^ d <= 2 ^ 0) by (apply Z.pow_le_mono_r; lia). 
    destruct (Z.ltb_spec d 0).
    - rewrite Z.pow_neg_r in Hhi by lia. lia.
    - replace d with 0 in Hhi by lia. cbn in Hhi. lia. }
  set (k := Z.pos (digits2_pos p)) in *.
  assert (0 < k) by (subst k; lia).
  destruct (Z.lt_trichotomy k d) as [Hlt | [Heq | Hgt]]; [exfalso | exact Heq | exfalso].
  - assert (2 ^ k <= 2 ^ (d - 1)) by (apply Z.pow_le_mono_r; lia). lia.
  - assert (2 ^ d <= 2 ^ (k - 1)) by (apply Z.pow_le_mono_r; lia). lia.
Qed.

Lemma shr_1_m (r : shr_record) :
  0 <= shr_m r -> shr_m (shr_1 r) = shr_m r / 2 /\ shr_r (shr_1 r) = Z.odd (shr_m r).
Proof.
  destruct r as [m r s]; cbn [shr_m]. intros Hm.
  destruct m as [| [p | p |] | p]; cbn [shr_1 shr_m shr_r]; try lia.
  - split; [reflexivity|reflexivity].
  - split; [|reflexivity]. rewrite Pos2Z.inj_xI. 
    apply Z.div_unique with (r := 1); lia.
  - split; [|reflexivity]. rewrite Pos2Z.inj_xO.
    apply Z.div_unique with (r := 0); lia.
  - split; reflexivity.
Qed.

Lemma iter_pos_shr_1 (n : positive) : forall r : shr_record,
  0 <= shr_m r ->
  shr_m (SpecFloat.iter_pos shr_1 n r) = shr_m r / 2 ^ Z.pos n /\
  shr_r (SpecFloat.iter_pos shr_1 n r) = Z.odd (shr_m r / 2 ^ (Z.pos n - 1)).
Proof.
  induction n as [n IH | n IH |]; intros r Hr; cbn [SpecFloat.iter_pos].
  - destruct (shr_1_m r Hr) as [E1 R1].
    assert (P1 : 0 < 2 ^ Z.pos n) by (apply Z.pow_pos_nonneg; lia).
    assert (P2 : 0 < 2 ^ (Z.pos n - 1)) by (apply Z.pow_pos_nonneg; lia).
    assert (H1 : 0 <= shr_m (shr_1 r)) by (rewrite E1; apply Z.div_pos; lia).
    destruct (IH _ H1) as [E2 R2].
    assert (H2 : 0 <= shr_m (SpecFloat.iter_pos shr_1 n (shr_1 r)))
      by (rewrite E2; apply Z.div_pos; lia).
    destruct (IH _ H2) as [E3 R3].
    rewrite E3, R3, E2, E1, !Z.div_div by lia.
    split; [f_equal | do 2 f_equal].
    + replace (Z.pos n~1) with (1 + Z.pos n + Z.pos n) by lia.
      rewrite !Z.pow_add_r by lia. ring.
    + replace (Z.pos n~1 - 1) with (1 + Z.pos n + (Z.pos n - 1)) by lia.
      rewrite !Z.pow_add_r by lia. ring.
  - destruct (IH _ Hr) as [E2 R2].
    assert (P1 : 0 < 2 ^ Z.pos n) by (apply Z.pow_pos_nonneg; lia).
    assert (P2 : 0 < 2 ^ (Z.pos n - 1)) by (apply Z.pow_pos_nonneg; lia).
    assert (H2 : 0 <= shr_m (SpecFloat.iter_pos shr_1 n r))
      by (rewrite E2; apply Z.div_pos; lia).
    destruct (IH _ H2) as [E3 R3].
    rewrite E3, R3, E2, !Z.div_div by lia.
    split; [f_equal | do 2 f_equal].
    + replace (Z.pos n~0) with (Z.pos n + Z.pos n) by lia.
      rewrite !Z.pow_add_r by lia. ring.
    + replace (Z.pos n~0 - 1) with (Z.pos n + (Z.pos n - 1)) by lia.
      rewrite !Z.pow_add_r by lia. ring.
  - destruct (shr_1_m r Hr) as [E1 R1]. rewrite E1, R1. cbn. rewrite Z.div_1_r.
    split; reflexivity.
Qed.

Lemma loc_of_record_of_loc (m : Z) (l : location) :
  loc_of_shr_record (shr_record_of_loc m l) = l.
Proof. destruct l as [| []]; reflexivity. Qed.

Lemma shr_m_record_of_loc (m : Z) (l : location) :
  shr_m (shr_record_of_loc m l) = m.
Proof. destruct l as [| []]; reflexivity. Qed.

Lemma round_nearest_even_cases (m : Z) (l : location) :
  round_nearest_even m l = m \/ round_nearest_even m l = m + 1.
Proof.
  destruct l as [| []]; cbn [round_nearest_even]; auto.
  destruct (Z.even m); auto.
Qed.

Lemma Zdigits2_53 (q : Z) :
  4503599627370496 <= q < 9007199254740992 -> Zdigits2 q = 53.
Proof.
  intros H. destruct q as [| p | p]; try lia.
  cbn [Zdigits2]. apply digits2_pos_unique. 
  change (2 ^ (53 - 1)) with 4503599627370496.
  change (2 ^ 53) with 9007199254740992. lia.
Qed.

Lemma binary_round_aux_normal (q e : Z) (l : location) :
  4503599627370496 <= q < 9007199254740992 -> -1074 <= e <= 970 ->
  binary_round_aux prec emax false q e l =
    if round_nearest_even q l <? 9007199254740992
    then S754_finite false (Z.to_pos (round_nearest_even q l)) e
    else S754_finite false 4503599627370496 (e + 1).
Proof.
  intros Hq He.
  unfold binary_round_aux, shr_fexp.
  rewrite (Zdigits2_53 q Hq).
  assert (F1 : fexp prec emax (53 + e) - e = 0).
  { unfold fexp, SpecFloat.emin, prec, emax. lia. }
  rewrite F1. cbn [shr].
  rewrite loc_of_record_of_loc, shr_m_record_of_loc.
  destruct (round_nearest_even_cases q l) as [E | E]; rewrite E.
  - destruct (Z.ltb_spec q 9007199254740992) as [_ | ?]; [| lia].
    rewrite (Zdigits2_53 q Hq), F1. cbn [shr shr_record_of_loc shr_m].
    destruct q as [| p | p]; try lia.
    replace (e <=? emax - prec) with true; [reflexivity |].
    symmetry. apply Z.leb_le. unfold prec, emax. lia.
  - destruct (Z.ltb_spec (q + 1) 9007199254740992) as [Hlt | Hge].
    + rewrite (Zdigits2_53 (q + 1)) by lia. rewrite F1.
      cbn [shr shr_record_of_loc shr_m].
      destruct (q + 1) as [| p | p] eqn:Eq1; try lia.
      replace (e <=? emax - prec) with true; [reflexivity |].
      symmetry. apply Z.leb_le. unfold prec, emax. lia.
    + replace (q + 1) with 9007199254740992 by lia.
      replace (fexp prec emax (Zdigits2 9007199254740992 + e) - e) with 1.
      2:{ change (Zdigits2 9007199254740992) with 54.
          unfold fexp, SpecFloat.emin, prec, emax. lia. }
      cbn [shr SpecFloat.iter_pos shr_record_of_loc shr_1 shr_m].
      replace (e + 1 <=? emax - prec) with true; [reflexivity |].
      symmetry. apply Z.leb_le. unfold prec, emax. lia.
Qed.

Lemma Pos_iter_xO (d p : positive) : Z.pos (Pos.iter xO p d) = Z.pos p * 2 ^ Z.pos d.
Proof.
  induction d as [| d IH] using Pos.peano_ind.
  - cbn. lia.
  - rewrite Pos.iter_succ, Pos2Z.inj_xO, IH, Pos2Z.inj_succ, Z.pow_succ_r by lia. ring.
Qed.

Lemma shl_align_value (mx : positive) (ex ex' : Z) :
  ex' <= ex -> Z.pos (fst (shl_align mx ex ex')) = Z.pos mx * 2 ^ (ex - ex').
Proof.
  intros H. unfold shl_align.
  destruct (ex' - ex) as [| d | d] eqn:E; try lia.
  - replace (ex - ex') with 0 by lia. cbn [fst]. lia.
  - cbn [fst]. rewrite Pos_iter_xO. f_equal. f_equal. lia.
Qed.

Lemma shl_align_same (mx : positive) (ex ex' : Z) :
  ex <= ex' -> shl_align mx ex ex' = (mx, ex).
Proof.
  intros H. unfold shl_align. destruct (ex' - ex) eqn:E; try reflexivity. lia.
Qed.

Lemma binary_round_aux_shift (M e : Z) (np : positive) :
  0 < M ->
  fexp prec emax (Zdigits2 M + e) - e = Z.pos np ->
  4503599627370496 <= M / 2 ^ Z.pos np < 9007199254740992 ->
  -1074 <= e + Z.pos np <= 970 ->
  exists l : location,
    binary_round_aux prec emax false M e loc_Exact =
      binary_round_aux prec emax false (M / 2 ^ Z.pos np) (e + Z.pos np) l /\
    (Z.odd (M / 2 ^ (Z.pos np - 1)) = false -> l = loc_Exact \/ l = loc_Inexact Lt).
Proof.
  intros HM Hf Hm1 He.
  set (R := SpecFloat.iter_pos shr_1 np (shr_record_of_loc M loc_Exact)).
  destruct (iter_pos_shr_1 np (shr_record_of_loc M loc_Exact)) as [Em Er].
  { cbn. lia. }
  fold R in Em, Er. cbn [shr_record_of_loc shr_m] in Em, Er.
  exists (loc_of_shr_record R). split.
  - unfold binary_round_aux at 1. unfold shr_fexp at 1. rewrite Hf. cbn [shr]. fold R.
    unfold binary_round_aux, shr_fexp.
    rewrite <- Em. 
    assert (D : Zdigits2 (shr_m R) = 53) by (apply Zdigits2_53; rewrite Em; exact Hm1).
    rewrite D.
    replace (fexp prec emax (53 + (e + Z.pos np)) - (e + Z.pos np)) with 0
      by (unfold fexp, SpecFloat.emin, prec, emax; lia).
    cbn [shr]. rewrite loc_of_record_of_loc, shr_m_record_of_loc. reflexivity.
  - intros Hodd. rewrite Hodd in Er.
    destruct R as [m r s]. cbn [shr_r] in Er. subst r.
    destruct s; cbn; auto.
Qed.

Lemma Prim2SF_one : Prim2SF 1 = SF_one.
Proof. reflexivity. Qed.

(** The spec-floats of [1 + x] for a positive [x] below one. *)
Lemma SFadd_one (m : positive) (e : Z) :
  e < -52 -> -1074 <= e -> Z.pos m < 9007199254740992 ->
  exists l : location,
    SF64add SF_one (S754_finite false m e) =
      binary_round_aux prec emax false
        (4503599627370496 + Z.pos m / 2 ^ (-52 - e)) (-52) l /\
    (Z.pos m < 2 ^ (-53 - e) -> l = loc_Exact \/ l = loc_Inexact Lt).
Proof.
  intros He1 He2 Hm.
  unfold SF64add, SF_one, SFadd.
  rewrite Z.min_r by lia. cbn [cond_Zopp].
  rewrite (shl_align_value 4503599627370496 (-52) e) by lia.
  rewrite (shl_align_value m e e) by lia.
  replace (e - e) with 0 by lia. rewrite Z.pow_0_r, Z.mul_1_r.
  set (n := -52 - e).
  assert (Hn : 0 < n) by (subst n; lia).
  replace (-52 - e) with n by reflexivity.
  assert (P53 : 2 ^ 53 = 9007199254740992) by reflexivity.
  assert (P52 : 2 ^ 52 = 4503599627370496) by reflexivity.
  assert (Pn : 2 ^ 1 <= 2 ^ n) by (apply Z.pow_le_mono_r; lia).
  change (2 ^ 1) with 2 in Pn.
  assert (Pn1 : 0 < 2 ^ (n - 1)) by (apply Z.pow_pos_nonneg; lia).
  assert (En : 2 ^ n = 2 * 2 ^ (n - 1)).
  { replace n with (Z.succ (n - 1)) at 1 by lia. apply Z.pow_succ_r. lia. }
  set (M := 4503599627370496 * 2 ^ n + Z.pos m).
  assert (HM : 0 < M) by (subst M; lia).
  assert (Ediv : M / 2 ^ n = 4503599627370496 + Z.pos m / 2 ^ n).
  { subst M. rewrite Z.add_comm, Z.div_add by lia. lia. }
  assert (Hq : Z.pos m / 2 ^ n < 4503599627370496).
  { apply Z.div_lt_upper_bound; lia. }
  assert (Hq0 : 0 <= Z.pos m / 2 ^ n) by (apply Z.div_pos; lia).
  assert (HD : Zdigits2 M = 53 + n).
  { destruct M as [| Mp | Mp] eqn:EM; try lia.
    cbn [Zdigits2]. apply digits2_pos_unique.
    replace (53 + n - 1) with (52 + n) by lia.
    rewrite !Z.pow_add_r by lia. rewrite P52, P53. lia. }
  destruct n as [| np | np] eqn:Enp; try lia.
  destruct (binary_round_aux_shift M e np) as [l [El Hl]]; try lia.
  { rewrite HD. unfold fexp, SpecFloat.emin, prec, emax. lia. }
  exists l. split.
  - destruct M as [| Mp | Mp] eqn:EM; try lia.
    cbn [binary_normalize]. unfold binary_round.
    rewrite shl_align_same.
    2:{ change (Z.pos (digits2_pos Mp)) with (Zdigits2 (Z.pos Mp)). rewrite HD.
        unfold fexp, SpecFloat.emin, prec, emax. lia. }
    rewrite El, Ediv. f_equal. lia.
  - intros Hsmall. apply Hl.
    replace (Z.pos np - 1) with (-53 - e) by lia.
    assert (Pk : 0 < 2 ^ (-53 - e)) by (apply Z.pow_pos_nonneg; lia).
    assert (Ek : 2 ^ Z.pos np = 2 * 2 ^ (-53 - e)).
    { replace (-53 - e) with (Z.pos np - 1) by lia. exact En. }
    replace (M / 2 ^ (-53 - e)) with (2 * 4503599627370496).
    + reflexivity.
    + apply Z.div_unique with (r := Z.pos m); [lia |].
      subst M. rewrite Ek. ring.
Qed.

Lemma binary_round_aux_binade (q e : Z) (l : location) :
  4503599627370496 <= q < 9007199254740992 -> -1074 <= e <= 970 ->
  in_binade e (binary_round_aux prec emax false q e l).
Proof.
  intros Hq He. rewrite binary_round_aux_normal by assumption.
  destruct (Z.ltb_spec (round_nearest_even q l) 9007199254740992) as [Hlt | Hge].
  - left. exists (Z.to_pos (round_nearest_even q l)). split; [reflexivity |].
    destruct (round_nearest_even_cases q l) as [E | E]; rewrite E in *; lia.
  - right. reflexivity.
Qed.

Lemma valid_finite_mantissa (s : bool) (m : positive) (e : Z) :
  valid_binary (S754_finite s m e) = true ->
  -1074 <= e /\ Z.pos m < 9007199254740992 /\
  (-1074 < e -> 4503599627370496 <= Z.pos m).
Proof.
  cbn [SpecFloat.valid_binary]. unfold bounded, canonical_mantissa.
  intros H. apply andb_true_iff in H as [H _]. apply Z.eqb_eq in H.
  pose proof (digits2_pos_bounds m) as [Blo Bhi].
  set (d := Z.pos (digits2_pos m)) in *.
  assert (0 < d) by (subst d; lia).
  unfold fexp, SpecFloat.emin, prec, emax in H.
  assert (Hd : d <= 53) by lia.
  assert (2 ^ d <= 2 ^ 53) by (apply Z.pow_le_mono_r; lia).
  change (2 ^ 53) with 9007199254740992 in *.
  split; [lia |]. split; [lia |].
  intros He. assert (d = 53) by lia.
  replace (d - 1) with 52 in Blo by lia.
  change (2 ^ 52) with 4503599627370496 in Blo. exact Blo.
Qed.

Lemma SFleb_finite_pos (m1 m2 : positive) (e1 e2 : Z) :
  SFleb (S754_finite false m1 e1) (S754_finite false m2 e2) = true <->
  e1 < e2 \/ (e1 = e2 /\ Z.pos m1 <= Z.pos m2).
Proof.
  unfold SFleb, SFcompare.
  destruct (Z.compare_spec e1 e2) as [E | E | E].
  - change (Pos.compare_cont Eq m1 m2) with (Pos.compare m1 m2).
    destruct (Pos.compare_spec m1 m2) as [E' | E' | E']; split; intros; try lia; try discriminate.
  - split; intros; try lia; reflexivity.
  - split; intros; try lia; discriminate.
Qed.

Lemma unit_interval_SF (f : spec_float) :
  valid_binary f = true ->
  SFleb (S754_zero false) f = true -> SFleb f SF_one = true ->
  (exists s, f = S754_zero s) \/ f = SF_one \/
  (exists m e, f = S754_finite false m e /\ e < -52 /\ -1074 <= e
               /\ Z.pos m < 9007199254740992).
Proof.
  intros Hv H0 H1.
  destruct f as [s | s | | s m e].
  - left. eauto.
  - destruct s; discriminate.
  - discriminate.
  - destruct s; [discriminate |]. right.
    apply SFleb_finite_pos in H1.
    destruct (valid_finite_mantissa _ _ _ Hv) as [V1 [V2 V3]].
    destruct H1 as [H1 | [H1 H2]].
    + right. exists m, e. repeat split; assumption.
    + left. subst e. unfold SF_one. f_equal. specialize (V3 ltac:(lia)). lia.
Qed.

Lemma SFadd_one_binade (f : spec_float) :
  valid_binary f = true ->
  SFleb (S754_zero false) f = true -> SFleb f SF_one = true ->
  in_binade (-52) (SF64add SF_one f).
Proof.
  intros Hv H0 H1.
  destruct (unit_interval_SF f Hv H0 H1) as [[s ->] | [-> | (m & e & -> & He1 & He2 & Hm)]].
  - left. exists 4503599627370496%positive. split; [reflexivity | lia].
  - right. reflexivity.
  - destruct (SFadd_one m e He1 He2 Hm) as [l [El _]]. rewrite El.
    apply binary_round_aux_binade; [| lia].
    assert (P : 0 < 2 ^ (-52 - e)) by (apply Z.pow_pos_nonneg; lia).
    assert (2 ^ 1 <= 2 ^ (-52 - e)) by (apply Z.pow_le_mono_r; lia).
    assert (Z.pos m / 2 ^ (-52 - e) < 4503599627370496)
      by (apply Z.div_lt_upper_bound; lia).
    assert (0 <= Z.pos m / 2 ^ (-52 - e)) by (apply Z.div_pos; lia).
    lia.
Qed.

Lemma SFadd_one_tiny (f : spec_float) :
  valid_binary f = true ->
  SFleb (S754_zero false) f = true ->
  SFleb f (S754_finite false 4503599627370496 (-106)) = true ->
  SF64add SF_one f = SF_one.
Proof.
  intros Hv H0 H1.
  destruct f as [s | s | | s m e]; try discriminate.
  - reflexivity.
  - destruct s; discriminate.
  - destruct s; [discriminate |].
    apply SFleb_finite_pos in H1.
    destruct (valid_finite_mantissa _ _ _ Hv) as [V1 [V2 V3]].
    assert (He : e <= -106) by lia.
    assert (Hsmall : Z.pos m < 2 ^ (-53 - e)).
    { destruct H1 as [H1 | [-> H2]].
      - assert (2 ^ 53 <= 2 ^ (-53 - e)) by (apply Z.pow_le_mono_r; lia).
        change (2 ^ 53) with 9007199254740992 in *. lia.
      - change (2 ^ (-53 - -106)) with 9007199254740992. lia. }
    destruct (SFadd_one m e ltac:(lia) V1 V2) as [l [El Hl]]. rewrite El.
    assert (2 ^ 53 <= 2 ^ (-52 - e)) by (apply Z.pow_le_mono_r; lia).
    change (2 ^ 53) with 9007199254740992 in *.
    rewrite Z.div_small by lia.
    rewrite binary_round_aux_normal by lia.
    destruct (Hl Hsmall) as [-> | ->]; reflexivity.
Qed.

Lemma SFdiv_one_binade (g : spec_float) :
  in_binade (-52) g -> in_binade (-53) (SF64div SF_one g).
Proof.
  intros [(m & -> & Hm) | ->].
  - destruct (Z.eq_dec (Z.pos m) 4503599627370496) as [E | NE].
    + replace m with 4503599627370496%positive by lia. right. reflexivity.
    + unfold SF64div, SF_one, SFdiv, SFdiv_core_binary.
      change (Zdigits2 4503599627370496) with 53.
      rewrite (Zdigits2_53 (Z.pos m)) by lia.
      change (Z.min (fexp prec emax (53 + -52 - (53 + -52))) (-52 - -52)) with (-53).
      change (-52 - -52 - -53) with 53.
      cbv iota beta.
      change (Z.shiftl 4503599627370496 53) with 40564819207303340847894502572032.
      pose proof (Z_div_mod 40564819207303340847894502572032 (Z.pos m) ltac:(lia)) as D.
      destruct (Z.div_eucl 40564819207303340847894502572032 (Z.pos m)) as [q r].
      destruct D as [D1 D2].
      apply binary_round_aux_binade; [| lia].
      change (xorb false false) with false. nia.
  - left. exists 4503599627370496%positive. split; [reflexivity | lia].
Qed.

Lemma in_binade_53_bounds (f : spec_float) :
  in_binade (-53) f -> SFleb SF_half f = true /\ SFleb f SF_one = true.
Proof.
  intros [(m & -> & Hm) | ->].
  - unfold SF_half, SF_one. rewrite !SFleb_finite_pos. lia.
  - split; reflexivity.
Qed.

Lemma SFcompare_antisym (f g : spec_float) :
  SFcompare g f = match SFcompare f g with Some c => Some (CompOpp c) | None => None end.
Proof.
  destruct f as [s1 | s1 | | s1 m1 e1], g as [s2 | s2 | | s2 m2 e2];
    try reflexivity; try (destruct s1; reflexivity); try (destruct s2; reflexivity);
    try (destruct s1, s2; reflexivity).
  cbn [SFcompare].
  rewrite (Z.compare_antisym e1 e2).
  change (Pos.compare_cont Eq m2 m1) with (Pos.compare m2 m1).
  change (Pos.compare_cont Eq m1 m2) with (Pos.compare m1 m2).
  rewrite (Pos.compare_antisym m1 m2).
  destruct s1, s2; try reflexivity;
    destruct (e1 ?= e2); cbn [CompOpp]; try reflexivity;
    destruct (m1 ?= m2)%positive; reflexivity.
Qed.

Lemma float_ltb_not_leb (x y : float) : (x <? y)%float = true -> (y <=? x)%float = false.
Proof.
  rewrite FloatAxioms.ltb_spec, FloatAxioms.leb_spec. unfold SFltb, SFleb.
  rewrite (SFcompare_antisym (Prim2SF x) (Prim2SF y)).
  destruct (SFcompare (Prim2SF x) (Prim2SF y)) as [[] |]; cbn; congruence.
Qed.

Lemma float_eqb_zero_opp (d : float) : (d =? 0)%float = true -> (- d =? 0)%float = true.
Proof.
  rewrite !FloatAxioms.eqb_spec, FloatAxioms.opp_spec.
  destruct (Prim2SF d) as [s | s | | s m e]; try discriminate; try reflexivity.
  - destruct s; discriminate.
  - destruct s; discriminate.
Qed.

Lemma float_add_one_tiny (x : float) :
  (0 <=? x)%float = true -> (x <=? 0x1p-54)%float = true -> (1 + x)%float = 1%float.
Proof.
  rewrite !FloatAxioms.leb_spec. intros H0 H1.
  apply Prim2SF_inj. rewrite FloatAxioms.add_spec.
  apply SFadd_one_tiny; [apply Prim2SF_valid | exact H0 | exact H1].
Qed.

Lemma float_logistic_bounds (x : float) :
  (0 <=? x)%float = true -> (x <=? 1)%float = true ->
  (0.5 <=? 1 / (1 + x))%float = true /\ (1 / (1 + x) <=? 1)%float = true.
Proof.
  rewrite !FloatAxioms.leb_spec. intros H0 H1.
  rewrite FloatAxioms.div_spec, FloatAxioms.add_spec.
  apply in_binade_53_bounds, SFdiv_one_binade, SFadd_one_binade;
    [apply Prim2SF_valid | exact H0 | exact H1].
Qed.

(** ** Converting integers *)

Lemma float_of_int_finite (z : Z) (s : bool) (m : positive) (e : Z) :
  binary_normalize prec emax z 0 false = S754_finite s m e ->
  float_of_int z = Ok (SF2Prim (S754_finite s m e)).
Proof. unfold float_of_int. intros ->. reflexivity. Qed.

Lemma binary_round_aux_normal_finite (q e : Z) (l : location) :
  4503599627370496 <= q < 9007199254740992 -> -1074 <= e <= 970 ->
  exists (m : positive) (e' : Z),
    binary_round_aux prec emax false q e l = S754_finite false m e'.
Proof.
  intros Hq He. rewrite (binary_round_aux_normal q e l Hq He).
  destruct (_ <? _); eauto.
Qed.

(** Every natural number below [2^1023] has a binary64 value. *)
Lemma float_of_int_in_range (z : Z) :
  0 <= z < 2 ^ 1023 -> exists f : float, float_of_int z = Ok f.
Proof.
  intros [H0 H1]. destruct z as [| p | p]; [eexists; reflexivity | | lia].
  assert (Hfin : exists (m : positive) (e : Z),
             binary_normalize prec emax (Z.pos p) 0 false = S754_finite false m e).
  { cbn [binary_normalize]. unfold binary_round.
    pose proof (digits2_pos_bounds p) as Hd.
    set (d := Z.pos (digits2_pos p)) in *.
    assert (Hd1 : 1 <= d) by (subst d; lia).
    assert (Hd2 : d <= 1023).
    { destruct (Z_le_gt_dec d 1023) as [L | G]; [exact L | exfalso].
      assert (2 ^ 1023 <= 2 ^ (d - 1)) by (apply Z.pow_le_mono_r; lia). lia. }
    assert (Hf : fexp prec emax (d + 0) = d - 53).
    { unfold fexp, emin, prec, emax. lia. }
    rewrite Hf.
    destruct (Z_le_gt_dec d 53) as [L | G].
    - pose proof (shl_align_value p 0 (d - 53) ltac:(lia)) as Hv.
      assert (Hs : snd (shl_align p 0 (d - 53)) = d - 53).
      { unfold shl_align. destruct (d - 53 - 0) eqn:E; cbn [snd]; lia. }
      destruct (shl_align p 0 (d - 53)) as [mz ez]. cbn [fst snd] in Hv, Hs. subst ez.
      apply binary_round_aux_normal_finite; [| lia].
      rewrite Hv. replace (0 - (d - 53)) with (53 - d) by lia.
      assert (E : 2 ^ 53 = 2 ^ d * 2 ^ (53 - d)).
      { rewrite <- Z.pow_add_r by lia. f_equal. lia. }
      assert (E' : 2 ^ 52 = 2 ^ (d - 1) * 2 ^ (53 - d)).
      { rewrite <- Z.pow_add_r by lia. f_equal. lia. }
      assert (0 < 2 ^ (53 - d)) by (apply Z.pow_pos_nonneg; lia).
      change 4503599627370496 with (2 ^ 52). change 9007199254740992 with (2 ^ 53).
      rewrite E, E'. nia.
    - rewrite (shl_align_same p 0 (d - 53)) by lia.
      destruct (d - 53) as [| np | np] eqn:En; try lia.
      assert (Hq : 4503599627370496 <= Z.pos p / 2 ^ Z.pos np < 9007199254740992).
      { assert (0 < 2 ^ Z.pos np) by (apply Z.pow_pos_nonneg; lia).
        assert (E : 2 ^ d = 2 ^ 53 * 2 ^ Z.pos np).
        { rewrite <- Z.pow_add_r by lia. f_equal. lia. }
        assert (E' : 2 ^ (d - 1) = 2 ^ 52 * 2 ^ Z.pos np).
        { rewrite <- Z.pow_add_r by lia. f_equal. lia. }
        change 4503599627370496 with (2 ^ 52). change 9007199254740992 with (2 ^ 53).
        split.
        - apply Z.div_le_lower_bound; [lia |]. rewrite Z.mul_comm, <- E'. lia.
        - apply Z.div_lt_upper_bound; [lia |]. rewrite Z.mul_comm, <- E. lia. }
      destruct (binary_round_aux_shift (Z.pos p) 0 np ltac:(lia)) as (l & -> & _).
      + cbn [Zdigits2]. fold d. rewrite Hf. lia.
      + exact Hq.
      + lia.
      + apply binary_round_aux_normal_finite; [exact Hq | lia]. }
  destruct Hfin as (m & e & Hfin). eexists. apply (float_of_int_finite _ _ _ _ Hfin).
Qed.

Lemma get_fighting_skill_product (c : Boxer) (product : float) :
  float_of_int (weight c * Z.of_nat (String.length (name c))) = Ok product ->
  get_fighting_skill c
  = Ok (product + reach c / 10
        + (if (age c <? 25)%Z then -1 else if (35 <? age c)%Z then -2 else 0))%float.
Proof.
  intros H. unfold get_fighting_skill. rewrite H.
  destruct (age c <? 25); [reflexivity |]. destruct (35 <? age c); reflexivity.
Qed.

(** [get_fighting_skill] raises nothing but the conversion's error. *)
Lemma get_fighting_skill_raises (c : Boxer) (e : exn) :
  get_fighting_skill c = Raise e -> e = spec.ConversionError.
Proof.
  unfold get_fighting_skill, float_of_int.
  destruct (binary_normalize _ _ (weight c * _) _ _); try (intros [= <-]; reflexivity);
    (destruct (age c <? 25); [discriminate |]; destruct (35 <? age c); discriminate).
Qed.

Lemma get_fighting_skill_overflow (c : Boxer) (e : exn) :
  float_of_int (weight c * Z.of_nat (String.length (name c))) = Raise e ->
  get_fighting_skill c = Raise e.
Proof. intros H. unfold get_fighting_skill. rewrite H. reflexivity. Qed.

(** ** Unfolding the monadic code *)

Ltac run_py :=
  unfold fight, clear_ring, enter_ring, get_boxers, unpack2, get_ring, set_ring,
    outside, lift, bind, ret, raise; cbn [fst snd length Nat.ltb Nat.leb negb].

Section FightFacts.
Context {W : Type}.
Variable get_random : list Z -> M W float.
Variable update_boxer_stats : Z -> string -> M W unit.
Variable libm_pow : float -> float -> float.

#[local] Abbreviation fight := (fight get_random update_boxer_stats libm_pow).

(** With fewer than two boxers, [fight] raises at once. *)
Lemma fight_short (s : State) :
  (length (fst s) < 2)%nat ->
  fight s = (Raise spec.InsufficientContestantsKind, s).
Proof.
  destruct s as [ring w]. cbn [fst]. intros H.
  destruct ring as [| b1 [| b2 ring]]; cbn [length] in H; try lia; reflexivity.
Qed.

(** With more than two, the unpacking of [get_boxers()] raises. *)
Lemma fight_long (s : State) :
  (2 < length (fst s))%nat ->
  fight s = (Raise (ValueError "too many values to unpack (expected 2)"), s).
Proof.
  destruct s as [ring w]. cbn [fst]. intros H.
  destruct ring as [| b1 [| b2 [| b3 ring]]]; cbn [length] in H; try lia; reflexivity.
Qed.

(** With exactly two, [fight] computes the two skills, draws, compares
    the draw with the normalized skill gap, and records the outcome. *)
Lemma fight_two (c1 c2 : Boxer) (w : W) :
  fight ([c1; c2], w) =
    match get_fighting_skill c1 with
    | Raise e => (Raise e, ([c1; c2], w))
    | Ok s1 =>
        match get_fighting_skill c2 with
        | Raise e => (Raise e, ([c1; c2], w))
        | Ok s2 =>
            match get_random [] w with
            | (Raise e, w1) => (Raise e, ([c1; c2], w1))
            | (Ok r, w1) =>
                if (r <? spec.win_probability libm_pow s1 s2)%float
                then spec.record_outcome update_boxer_stats c1 c2 ([c1; c2], w1)
                else spec.record_outcome update_boxer_stats c2 c1 ([c1; c2], w1)
            end
        end
    end.
Proof.
  run_py. unfold spec.record_outcome, spec.win_probability, spec.logistic.
  destruct (get_fighting_skill c1) as [s1 | e]; [| reflexivity].
  destruct (get_fighting_skill c2) as [s2 | e]; [| reflexivity].
  destruct (get_random [] w) as [[r | e] w1]; [| reflexivity].
  cbn [fst snd].
  destruct (r <? _)%float; cbn [fst snd];
    (destruct (update_boxer_stats _ "win" w1) as [[[] | e1] w2]; [| reflexivity];
     cbn [fst snd];
     destruct (update_boxer_stats _ "loss" w2) as [[[] | e2] w3]; reflexivity).
Qed.

Lemma fight_two_skills (c1 c2 : Boxer) (s1 s2 : float) (w : W) :
  get_fighting_skill c1 = Ok s1 -> get_fighting_skill c2 = Ok s2 ->
  fight ([c1; c2], w) =
    match get_random [] w with
    | (Raise e, w1) => (Raise e, ([c1; c2], w1))
    | (Ok r, w1) =>
        if (r <? spec.win_probability libm_pow s1 s2)%float
        then spec.record_outcome update_boxer_stats c1 c2 ([c1; c2], w1)
        else spec.record_outcome update_boxer_stats c2 c1 ([c1; c2], w1)
    end.
Proof. intros H1 H2. rewrite fight_two, H1, H2. reflexivity. Qed.

(** A skill that cannot be computed ends the fight with nothing changed. *)
Lemma fight_two_no_skill (c1 c2 : Boxer) (w : W) (e : exn) :
  get_fighting_skill c1 = Raise e
  \/ (exists s1, get_fighting_skill c1 = Ok s1 /\ get_fighting_skill c2 = Raise e) ->
  fight ([c1; c2], w) = (Raise e, ([c1; c2], w)).
Proof.
  intros [H | (s1 & H1 & H2)]; rewrite fight_two.
  - rewrite H. reflexivity.
  - rewrite H1, H2. reflexivity.
Qed.

Lemma record_outcome_ok (winner loser : Boxer) (s s' : State) (nm : string) :
  spec.record_outcome update_boxer_stats winner loser s = (Ok nm, s') ->
  exists w1 w2,
    update_boxer_stats (id winner) "win" (snd s) = (Ok tt, w1) /\
    update_boxer_stats (id loser) "loss" w1 = (Ok tt, w2) /\
    s' = ([], w2) /\ nm = name winner.
Proof.
  unfold spec.record_outcome.
  destruct (update_boxer_stats (id winner) "win" (snd s)) as [[[] | e1] w1] eqn:E1;
    [| discriminate].
  destruct (update_boxer_stats (id loser) "loss" w1) as [[[] | e2] w2] eqn:E2;
    [| discriminate].
  intros [= <- <-]. exists w1, w2. auto.
Qed.

(** A successful [fight] started from a ring of two, drew a number and
    recorded a win and a loss, in this order, before emptying the ring. *)
Lemma fight_ok_inv (s s' : State) (nm : string) :
  fight s = (Ok nm, s') ->
  exists c1 c2 s1 s2 r w1 w2 w3,
    fst s = [c1; c2] /\
    get_fighting_skill c1 = Ok s1 /\ get_fighting_skill c2 = Ok s2 /\
    get_random [] (snd s) = (Ok r, w1) /\
    let winner := if (r <? spec.win_probability libm_pow s1 s2)%float then c1 else c2 in
    let loser := if (r <? spec.win_probability libm_pow s1 s2)%float then c2 else c1 in
    update_boxer_stats (id winner) "win" w1 = (Ok tt, w2) /\
    update_boxer_stats (id loser) "loss" w2 = (Ok tt, w3) /\
    s' = ([], w3) /\ nm = name winner.
Proof.
  destruct s as [ring w].
  destruct ring as [| c1 [| c2 [| c3 ring]]].
  - rewrite fight_short by (cbn; lia). discriminate.
  - rewrite fight_short by (cbn; lia). discriminate.
  - rewrite fight_two.
    destruct (get_fighting_skill c1) as [s1 | e] eqn:E1; [| discriminate].
    destruct (get_fighting_skill c2) as [s2 | e] eqn:E2; [| discriminate].
    destruct (get_random [] w) as [[r | e] w1] eqn:Er; [| discriminate].
    destruct (r <? _)%float eqn:Ecmp; intros H;
      apply record_outcome_ok in H as (w2 & w3 & H1 & H2 & -> & ->);
      exists c1, c2, s1, s2, r, w1, w2, w3; cbn [fst snd] in *; rewrite Ecmp;
      repeat split; assumption.
  - rewrite fight_long by (cbn; lia). discriminate.
Qed.

Lemma record_outcome_ring (winner loser : Boxer) (s : State) :
  fst (snd (spec.record_outcome update_boxer_stats winner loser s)) = fst s \/
  fst (snd (spec.record_outcome update_boxer_stats winner loser s)) = [].
Proof.
  unfold spec.record_outcome.
  destruct (update_boxer_stats (id winner) "win" (snd s)) as [[[] | e1] w1]; [| auto].
  destruct (update_boxer_stats (id loser) "loss" w1) as [[[] | e2] w2]; auto.
Qed.

(** [fight] never makes the ring longer. *)
Lemma fight_ring_size (s : State) :
  (length (fst (snd (fight s))) <= length (fst s))%nat.
Proof.
  destruct s as [ring w].
  destruct ring as [| c1 [| c2 [| c3 ring]]].
  - rewrite fight_short by (cbn; lia). reflexivity.
  - rewrite fight_short by (cbn; lia). reflexivity.
  - rewrite fight_two.
    destruct (get_fighting_skill c1) as [s1 | e]; [| reflexivity].
    destruct (get_fighting_skill c2) as [s2 | e]; [| reflexivity].
    destruct (get_random [] w) as [[r | e] w1]; [| reflexivity].
    destruct (r <? _)%float;
      match goal with
      | |- context [spec.record_outcome ?u ?a ?b ?st] =>
          destruct (record_outcome_ring a b st) as [E | E]; rewrite E
      end; cbn; lia.
  - rewrite fight_long by (cbn; lia). reflexivity.
Qed.

(** One call changes the length of the ring as the state machine says. *)
Lemma exec_ring_size (c : call) (s : State) :
  let n := length (fst s) in
  let n' := length (fst (exec get_random update_boxer_stats libm_pow c s)) in
  match c with
  | call_enter_ring _ => n' = n \/ (n' = S n /\ (n < 2)%nat)
  | _ => (n' <= n)%nat
  end.
Proof.
  destruct s as [ring w]. destruct c as [[b | ty] | | |]; cbn [exec].
  - destruct ring as [| b1 [| b2 ring]]; cbn; [right | right | left]; lia.
  - left. reflexivity.
  - destruct ring; cbn; lia.
  - apply fight_ring_size.
  - destruct ring; cbn; lia.
Qed.

Lemma exec_all_ring_size (cs : list call) : forall s : State,
  (length (fst s) <= 2)%nat ->
  (length (fst (exec_all get_random update_boxer_stats libm_pow cs s)) <= 2)%nat.
Proof.
  induction cs as [| c cs IH]; intros s Hs; [exact Hs |].
  cbn [exec_all fold_left]. apply IH.
  pose proof (exec_ring_size c s) as H. cbn zeta in H.
  destruct c; lia.
Qed.
End FightFacts.

(** ** The claims *)

Import test_ring_model.

(** The fixtures are what the dataclass constructor builds. *)
Example fixtures_constructed :
  Boxer_init 1 "Boxer One" 150 62 (reach sample_boxer1) 18 = Ok sample_boxer1
  /\ Boxer_init 2 "Boxer Two" 220 52 (reach sample_boxer2) 20 = Ok sample_boxer2
  /\ Boxer_init 4 "Bantam" 118 60 (reach sample_boxer1) 30
     = Raise (ValueError "Invalid weight: 118. Weight must be at least 125.").
Proof. repeat split; vm_compute; reflexivity. Qed.

(** The skills of the fixtures. *)
Lemma skill_sample_boxer1 : get_fighting_skill sample_boxer1 = Ok expected_skill1.
Proof. vm_compute. reflexivity. Qed.

Lemma skill_sample_boxer2 : get_fighting_skill sample_boxer2 = Ok expected_skill2.
Proof. vm_compute. reflexivity. Qed.

Lemma skill_sample_twin : get_fighting_skill sample_twin = Ok expected_skill1.
Proof. vm_compute. reflexivity. Qed.

(** C1 as stated fails: [heavy_boxer] is a valid contestant (the dataclass
    constructor builds it, and it has a name, a weight of at least 125, a
    positive height and reach and an age between 18 and 40), and it has no
    fighting skill: the conversion of its weight raises. *)
Lemma C1_counterexample :
  Boxer_init 9 "A" (2 ^ 1024) 70 (reach heavy_boxer) 30 = Ok heavy_boxer
  /\ spec.valid_contestant heavy_boxer
  /\ get_fighting_skill heavy_boxer = Raise spec.ConversionError
  /\ ~ (forall c : Boxer, spec.valid_contestant c ->
           exists skill : float, get_fighting_skill c = Ok skill).
Proof.
  assert (V : spec.valid_contestant heavy_boxer).
  { unfold spec.valid_contestant. cbn. repeat split; try lia; discriminate. }
  assert (E : get_fighting_skill heavy_boxer = Raise spec.ConversionError)
    by (vm_compute; reflexivity).
  split; [vm_compute; reflexivity |]. split; [exact V |]. split; [exact E |].
  intros H. destruct (H heavy_boxer V) as [skill Hs]. rewrite E in Hs. discriminate Hs.
Qed.

(** C1, amended: for every valid contestant whose product
    [weight * len(name)] is below [2^1023], the fighting skill is
    [weight * len(name) + reach / 10 + ageModifier], computed in binary64
    from left to right, where the age modifier is -1 below 25, -2 above 35
    and 0 in between.  More exactly, for every boxer (valid or not): when
    the product has a binary64 value the skill is that sum, and when it
    has none [get_fighting_skill] raises the conversion's error.  The
    boxer of the test fixture (name of length 9, weight 150, reach 10.9,
    age 18) has the skill the test expects, the binary64 value of
    1350.09. *)
Theorem C1_get_fighting_skill_formula :
  (forall c : Boxer,
      spec.valid_contestant c ->
      weight c * Z.of_nat (String.length (name c)) < 2 ^ 1023 ->
      exists product modifier : float,
        float_of_int (weight c * Z.of_nat (String.length (name c))) = Ok product
        /\ float_of_int (spec.ageModifier (age c)) = Ok modifier
        /\ get_fighting_skill c = Ok (product + reach c / 10 + modifier)%float)
  /\ (forall (c : Boxer) (product : float),
         float_of_int (weight c * Z.of_nat (String.length (name c))) = Ok product ->
         exists modifier : float,
           float_of_int (spec.ageModifier (age c)) = Ok modifier
           /\ get_fighting_skill c = Ok (product + reach c / 10 + modifier)%float)
  /\ (forall (c : Boxer) (e : exn),
         float_of_int (weight c * Z.of_nat (String.length (name c))) = Raise e ->
         e = spec.ConversionError /\ get_fighting_skill c = Raise e)
  /\ (forall a : Z,
         (a < 25 -> spec.ageModifier a = -1) /\
         (35 < a -> spec.ageModifier a = -2) /\
         (25 <= a <= 35 -> spec.ageModifier a = 0))
  /\ (String.length (name sample_boxer1) = 9%nat /\ weight sample_boxer1 = 150
      /\ age sample_boxer1 = 18
      /\ get_fighting_skill sample_boxer1 = Ok expected_skill1).
Proof.
  assert (G : forall (c : Boxer) (product : float),
             float_of_int (weight c * Z.of_nat (String.length (name c))) = Ok product ->
             exists modifier : float,
               float_of_int (spec.ageModifier (age c)) = Ok modifier
               /\ get_fighting_skill c = Ok (product + reach c / 10 + modifier)%float).
  { intros c product H. rewrite (get_fighting_skill_product c product H).
    unfold spec.ageModifier.
    destruct (Z.ltb_spec (age c) 25), (Z_lt_dec (age c) 25); try lia;
      [eexists; split; reflexivity |].
    destruct (Z.ltb_spec 35 (age c)), (Z_lt_dec 35 (age c)); try lia;
      eexists; split; reflexivity. }
  split; [| split; [exact G | split; [| split]]].
  - intros c (_ & Hw & _) Hlt.
    destruct (float_of_int_in_range (weight c * Z.of_nat (String.length (name c))))
      as [product Hp]; [lia |].
    destruct (G c product Hp) as (modifier & Hm & Hs). eauto.
  - intros c e H. pose proof (get_fighting_skill_overflow c e H) as Hs.
    split; [exact (get_fighting_skill_raises c e Hs) | exact Hs].
  - intros a. unfold spec.ageModifier.
    destruct (Z_lt_dec a 25), (Z_lt_dec 35 a); repeat split; intros; lia.
  - repeat split; vm_compute; reflexivity.
Qed.

Lemma C1_witness :
  exists product modifier : float,
    float_of_int (weight sample_boxer1 * Z.of_nat (String.length (name sample_boxer1)))
    = Ok product
    /\ float_of_int (spec.ageModifier (age sample_boxer1)) = Ok modifier
    /\ get_fighting_skill sample_boxer1
       = Ok (product + reach sample_boxer1 / 10 + modifier)%float.
Proof.
  apply (proj1 C1_get_fighting_skill_formula sample_boxer1).
  - unfold spec.valid_contestant. cbn. repeat split; try lia; discriminate.
  - vm_compute. reflexivity.
Defined.

(** C2: in a ring of two boxers [c1] (entered first) and [c2] whose
    skills are computed, when the random provider returns the draw [r]: if
    [r < p] the fight goes on as the recording of [c1]'s win and [c2]'s
    loss, and if [r >= p] as the recording of [c2]'s win and [c1]'s loss,
    where [p] is the logistic value of the absolute skill gap. *)
Theorem C2_fight_selects_by_draw {W : Type}
    (get_random : list Z -> M W float) (update_boxer_stats : Z -> string -> M W unit)
    (libm_pow : float -> float -> float) (c1 c2 : Boxer) (skill_1 skill_2 : float)
    (w w1 : W) (r : float) :
  get_fighting_skill c1 = Ok skill_1 -> get_fighting_skill c2 = Ok skill_2 ->
  get_random [] w = (Ok r, w1) ->
  let p := spec.win_probability libm_pow skill_1 skill_2 in
  ((r <? p)%float = true ->
     fight get_random update_boxer_stats libm_pow ([c1; c2], w)
     = spec.record_outcome update_boxer_stats c1 c2 ([c1; c2], w1))
  /\ ((p <=? r)%float = true ->
     fight get_random update_boxer_stats libm_pow ([c1; c2], w)
     = spec.record_outcome update_boxer_stats c2 c1 ([c1; c2], w1)).
Proof.
  intros Hs1 Hs2 Hr p. rewrite (fight_two_skills _ _ _ _ _ _ _ _ Hs1 Hs2), Hr.
  fold p. split; intros H.
  - rewrite H. reflexivity.
  - destruct (r <? p)%float eqn:E; [| reflexivity].
    apply float_ltb_not_leb in E. congruence.
Qed.

(** The scenario of the specification: two boxers of equal skill, so that
    [p] is one half; the draw 0.4 makes the first win and the draw 0.6 the
    second, as the recorded calls and the returned names show. *)
Lemma C2_witness :
  (fight (patched_get_random draw_low) mock_update_boxer_stats pow_underflow
     ([sample_boxer1; sample_twin], [])
   = (Ok "Boxer One", ([], [(1, "win"); (3, "loss")])))
  /\ (fight (patched_get_random draw_high) mock_update_boxer_stats pow_underflow
        ([sample_boxer1; sample_twin], [])
      = (Ok "Boxer Uno", ([], [(3, "win"); (1, "loss")]))).
Proof.
  split.
  - rewrite (proj1 (C2_fight_selects_by_draw (patched_get_random draw_low)
                      mock_update_boxer_stats pow_underflow
                      sample_boxer1 sample_twin expected_skill1 expected_skill1
                      [] [] draw_low skill_sample_boxer1 skill_sample_twin eq_refl)).
    + vm_compute. reflexivity.
    + vm_compute. reflexivity.
  - rewrite (proj2 (C2_fight_selects_by_draw (patched_get_random draw_high)
                      mock_update_boxer_stats pow_underflow
                      sample_boxer1 sample_twin expected_skill1 expected_skill1
                      [] [] draw_high skill_sample_boxer1 skill_sample_twin eq_refl)).
    + vm_compute. reflexivity.
    + vm_compute. reflexivity.
Defined.

(** C3 as stated fails for a pool that holds [heavy_boxer], a valid
    contestant: the fight ends before the draw step, with the error of the
    conversion and not with the one of the missing argument. *)
Lemma C3_counterexample :
  let w := deployed.mkWorld (api_utils.mkNet [] []) ∅ in
  spec.valid_contestant heavy_boxer /\ spec.valid_contestant sample_boxer1
  /\ fight deployed.get_random (deployed.update_boxer_stats None) pow_underflow
       ([heavy_boxer; sample_boxer1], w)
     = (Raise spec.ConversionError, ([heavy_boxer; sample_boxer1], w))
  /\ fight deployed.get_random (deployed.update_boxer_stats None) pow_underflow
       ([heavy_boxer; sample_boxer1], w)
     <> (Raise spec.ArityError, ([heavy_boxer; sample_boxer1], w)).
Proof.
  cbv zeta.
  assert (E : fight deployed.get_random (deployed.update_boxer_stats None) pow_underflow
                ([heavy_boxer; sample_boxer1],
                 deployed.mkWorld (api_utils.mkNet [] []) ∅)
              = (Raise spec.ConversionError,
                 ([heavy_boxer; sample_boxer1],
                  deployed.mkWorld (api_utils.mkNet [] []) ∅))).
  { apply fight_two_no_skill. left. vm_compute. reflexivity. }
  split; [| split; [| split]].
  - unfold spec.valid_contestant. cbn. repeat split; try lia; discriminate.
  - unfold spec.valid_contestant. cbn. repeat split; try lia; discriminate.
  - exact E.
  - rewrite E. discriminate.
Qed.

(** C3, amended: [fight] calls [get_random()] with no argument, and
    [get_random] has one required parameter, [max]: with the program's own
    [get_random], a fight between two boxers whose skills are computed
    raises the [TypeError] of the missing argument at the draw; a fight
    in which a skill cannot be computed raises the conversion's error
    before the draw.  Either way the fight raises and leaves the ring, the
    network and the table as they were (no request sent, no outcome
    recorded), whatever [update_boxer_stats] would have done. *)
Theorem C3_fight_draw_arity_error
    (update_boxer_stats : Z -> string -> M deployed.World unit)
    (libm_pow : float -> float -> float) (c1 c2 : Boxer) (w : deployed.World) :
  deployed.get_random [] w = (Raise spec.ArityError, w)
  /\ (forall skill_1 skill_2 : float,
         get_fighting_skill c1 = Ok skill_1 -> get_fighting_skill c2 = Ok skill_2 ->
         fight deployed.get_random update_boxer_stats libm_pow ([c1; c2], w)
         = (Raise spec.ArityError, ([c1; c2], w)))
  /\ (forall e : exn,
         get_fighting_skill c1 = Raise e
         \/ (exists skill_1 : float,
                get_fighting_skill c1 = Ok skill_1 /\ get_fighting_skill c2 = Raise e) ->
         e = spec.ConversionError
         /\ fight deployed.get_random update_boxer_stats libm_pow ([c1; c2], w)
            = (Raise e, ([c1; c2], w)))
  /\ (exists e : exn,
         (e = spec.ArityError \/ e = spec.ConversionError)
         /\ fight deployed.get_random update_boxer_stats libm_pow ([c1; c2], w)
            = (Raise e, ([c1; c2], w))).
Proof.
  assert (H : deployed.get_random [] w = (Raise spec.ArityError, w)).
  { destruct w as [n t]. reflexivity. }
  assert (A : forall skill_1 skill_2 : float,
             get_fighting_skill c1 = Ok skill_1 -> get_fighting_skill c2 = Ok skill_2 ->
             fight deployed.get_random update_boxer_stats libm_pow ([c1; c2], w)
             = (Raise spec.ArityError, ([c1; c2], w))).
  { intros s1 s2 H1 H2. rewrite (fight_two_skills _ _ _ _ _ _ _ _ H1 H2), H. reflexivity. }
  assert (B : forall e : exn,
             get_fighting_skill c1 = Raise e
             \/ (exists skill_1 : float,
                    get_fighting_skill c1 = Ok skill_1 /\ get_fighting_skill c2 = Raise e) ->
             e = spec.ConversionError
             /\ fight deployed.get_random update_boxer_stats libm_pow ([c1; c2], w)
                = (Raise e, ([c1; c2], w))).
  { intros e He. split; [| apply fight_two_no_skill, He].
    destruct He as [He | (s1 & _ & He)]; exact (get_fighting_skill_raises _ _ He). }
  split; [exact H |]. split; [exact A |]. split; [exact B |].
  destruct (get_fighting_skill c1) as [s1 | e1] eqn:E1.
  - destruct (get_fighting_skill c2) as [s2 | e2] eqn:E2.
    + exists spec.ArityError. split; [left; reflexivity | exact (A s1 s2 eq_refl eq_refl)].
    + exists e2. destruct (B e2) as [-> Hf]; [right; eauto |].
      split; [right; reflexivity | exact Hf].
  - exists e1. destruct (B e1) as [-> Hf]; [left; reflexivity |].
    split; [right; reflexivity | exact Hf].
Qed.

(** The fixtures of the tests, with the repository's own [get_random]. *)
Lemma C3_witness :
  let w := deployed.mkWorld (api_utils.mkNet [] []) ∅ in
  fight deployed.get_random (deployed.update_boxer_stats None) pow_underflow
    (sample_ring, w)
  = (Raise spec.ArityError, (sample_ring, w)).
Proof.
  intros w.
  exact (proj1 (proj2 (C3_fight_draw_arity_error (deployed.update_boxer_stats None)
                         pow_underflow sample_boxer1 sample_boxer2 w))
           expected_skill1 expected_skill2 skill_sample_boxer1 skill_sample_boxer2).
Defined.

(** C4: every successful [fight] in a ring of two boxers drew a number,
    then recorded a win for the winner's id, then (in the world the first
    call left) a loss for the loser's id, emptied the ring, and returned
    the winner's name. *)
Theorem C4_fight_success_records_then_resets {W : Type}
    (get_random : list Z -> M W float) (update_boxer_stats : Z -> string -> M W unit)
    (libm_pow : float -> float -> float) (c1 c2 : Boxer) (w : W)
    (nm : string) (s' : State) :
  fight get_random update_boxer_stats libm_pow ([c1; c2], w) = (Ok nm, s') ->
  exists (r : float) (w1 w2 w3 : W) (winner loser : Boxer),
    get_random [] w = (Ok r, w1)
    /\ ((winner, loser) = (c1, c2) \/ (winner, loser) = (c2, c1))
    /\ update_boxer_stats (id winner) "win" w1 = (Ok tt, w2)
    /\ update_boxer_stats (id loser) "loss" w2 = (Ok tt, w3)
    /\ s' = ([], w3) /\ nm = name winner.
Proof.
  intros H.
  apply fight_ok_inv
    in H as (d1 & d2 & s1 & s2 & r & w1 & w2 & w3 & E & _ & _ & Hr & H1 & H2 & -> & ->).
  cbn [fst snd] in E, Hr. injection E as <- <-.
  exists r, w1, w2, w3.
  destruct (r <? spec.win_probability libm_pow s1 s2)%float.
  - exists c1, c2. repeat split; auto.
  - exists c2, c1. repeat split; auto.
Qed.

(** The fight of the test, with its mock: the calls recorded are the win
    of boxer 1 and then the loss of boxer 2. *)
Lemma C4_witness :
  fight (patched_get_random draw_low) mock_update_boxer_stats pow_underflow (sample_ring, [])
    = (Ok "Boxer One", ([], [(1, "win"); (2, "loss")]))
  /\ exists (r : float) (w1 w2 w3 : list (Z * string)) (winner loser : Boxer),
       patched_get_random draw_low [] [] = (Ok r, w1)
       /\ ((winner, loser) = (sample_boxer1, sample_boxer2)
           \/ (winner, loser) = (sample_boxer2, sample_boxer1))
       /\ mock_update_boxer_stats (id winner) "win" w1 = (Ok tt, w2)
       /\ mock_update_boxer_stats (id loser) "loss" w2 = (Ok tt, w3)
       /\ ([], [(1, "win"); (2, "loss")]) = (([] : list Boxer), w3)
       /\ "Boxer One" = name winner.
Proof.
  assert (E : fight (patched_get_random draw_low) mock_update_boxer_stats pow_underflow
                (sample_ring, [])
              = (Ok "Boxer One", ([], [(1, "win"); (2, "loss")]))).
  { vm_compute. reflexivity. }
  split; [exact E |].
  exact (C4_fight_success_records_then_resets _ _ _ _ _ _ _ _ E).
Defined.

(** C5: in a fight between two boxers whose skills were computed and
    whose draw was returned, a failure of either recording call is the
    failure of [fight], unchanged, and the ring still holds the two boxers
    it held. *)
Theorem C5_fight_persistence_failure {W : Type}
    (get_random : list Z -> M W float) (update_boxer_stats : Z -> string -> M W unit)
    (libm_pow : float -> float -> float) (c1 c2 : Boxer) (skill_1 skill_2 : float)
    (w w1 : W) (r : float) :
  get_fighting_skill c1 = Ok skill_1 -> get_fighting_skill c2 = Ok skill_2 ->
  get_random [] w = (Ok r, w1) ->
  let first_wins := (r <? spec.win_probability libm_pow skill_1 skill_2)%float in
  let winner := if first_wins then c1 else c2 in
  let loser := if first_wins then c2 else c1 in
  (forall (e : exn) (w2 : W),
      update_boxer_stats (id winner) "win" w1 = (Raise e, w2) ->
      fight get_random update_boxer_stats libm_pow ([c1; c2], w)
      = (Raise e, ([c1; c2], w2)))
  /\ (forall (e : exn) (w2 w3 : W),
      update_boxer_stats (id winner) "win" w1 = (Ok tt, w2) ->
      update_boxer_stats (id loser) "loss" w2 = (Raise e, w3) ->
      fight get_random update_boxer_stats libm_pow ([c1; c2], w)
      = (Raise e, ([c1; c2], w3))).
Proof.
  intros Hs1 Hs2 Hr first_wins winner loser.
  rewrite (fight_two_skills _ _ _ _ _ _ _ _ Hs1 Hs2), Hr. fold first_wins.
  subst winner loser.
  split.
  - intros e w2 H1. destruct first_wins; unfold spec.record_outcome;
      cbn [fst snd]; rewrite H1; reflexivity.
  - intros e w2 w3 H1 H2. destruct first_wins; unfold spec.record_outcome;
      cbn [fst snd]; rewrite H1, H2; reflexivity.
Qed.

(** A table that knows boxer 1 only, and one that knows neither boxer:
    the loss of boxer 2, respectively the win of boxer 1, cannot be
    recorded, and the ring keeps both boxers. *)
Lemma C5_witness :
  let w0 := deployed.mkWorld (api_utils.mkNet [] []) ∅ in
  let w1 := deployed.mkWorld (api_utils.mkNet [] [])
              {[ 1 := boxers_model.mkRow 0 0 ]} in
  let w1' := deployed.mkWorld (api_utils.mkNet [] [])
               {[ 1 := boxers_model.mkRow 1 1 ]} in
  fight (patched_get_random draw_low) (deployed.update_boxer_stats None) pow_underflow
    (sample_ring, w0)
  = (Raise (ValueError "Boxer with ID 1 not found."), (sample_ring, w0))
  /\ fight (patched_get_random draw_low) (deployed.update_boxer_stats None) pow_underflow
       (sample_ring, w1)
     = (Raise (ValueError "Boxer with ID 2 not found."), (sample_ring, w1')).
Proof.
  intros w0 w1 w1'. split.
  - apply (proj1 (C5_fight_persistence_failure (patched_get_random draw_low)
                    (deployed.update_boxer_stats None) pow_underflow
                    sample_boxer1 sample_boxer2 expected_skill1 expected_skill2
                    w0 w0 draw_low skill_sample_boxer1 skill_sample_boxer2 eq_refl)).
    vm_compute. reflexivity.
  - apply (proj2 (C5_fight_persistence_failure (patched_get_random draw_low)
                    (deployed.update_boxer_stats None) pow_underflow
                    sample_boxer1 sample_boxer2 expected_skill1 expected_skill2
                    w1 w1 draw_low skill_sample_boxer1 skill_sample_boxer2 eq_refl)
             (ValueError "Boxer with ID 2 not found.") w1' w1').
    + vm_compute. reflexivity.
    + vm_compute. reflexivity.
Defined.

(** C6: with fewer than two boxers [fight] raises "There must be two
    boxers to start a fight." and changes nothing; and the [fight] that
    follows a successful [fight] raises it too, the ring being empty. *)
Theorem C6_fight_needs_two {W : Type}
    (get_random : list Z -> M W float) (update_boxer_stats : Z -> string -> M W unit)
    (libm_pow : float -> float -> float) :
  (forall s : State,
      (length (fst s) < 2)%nat ->
      fight get_random update_boxer_stats libm_pow s
      = (Raise spec.InsufficientContestantsKind, s))
  /\ (forall (s s' : State) (nm : string),
      fight get_random update_boxer_stats libm_pow s = (Ok nm, s') ->
      fst s' = []
      /\ fight get_random update_boxer_stats libm_pow s'
         = (Raise spec.InsufficientContestantsKind, s')).
Proof.
  split.
  - intros s H. apply fight_short, H.
  - intros s s' nm H.
    apply fight_ok_inv
      in H as (c1 & c2 & s1 & s2 & r & w1 & w2 & w3 & _ & _ & _ & _ & _ & _ & -> & _).
    split; [reflexivity |]. apply fight_short. cbn. lia.
Qed.

Lemma C6_witness :
  fight (patched_get_random draw_low) mock_update_boxer_stats pow_underflow
    ([sample_boxer1], [])
  = (Raise spec.InsufficientContestantsKind, ([sample_boxer1], []))
  /\ fight (patched_get_random draw_low) mock_update_boxer_stats pow_underflow
       ([], [(1, "win"); (2, "loss")])
     = (Raise spec.InsufficientContestantsKind, ([], [(1, "win"); (2, "loss")])).
Proof.
  split.
  - apply (proj1 (C6_fight_needs_two (patched_get_random draw_low)
                    mock_update_boxer_stats pow_underflow)).
    cbn. lia.
  - apply (proj2 (C6_fight_needs_two (patched_get_random draw_low)
                    mock_update_boxer_stats pow_underflow)
             (sample_ring, []) _ "Boxer One").
    vm_compute. reflexivity.
Defined.



(** C8: [get_boxers] returns the ring as it is and changes nothing; on an
    empty ring too, where its docstring and [test_get_empty_boxers] expect
    [ValueError("Ring is empty")]: there it returns the empty list. *)
Theorem C8_get_boxers_never_raises {W : Type} :
  (forall s : State (W := W), get_boxers s = (Ok (fst s), s))
  /\ (forall w : W,
         get_boxers ([], w) = (Ok [], ([], w))
         /\ get_boxers ([], w) <> (Raise spec.EmptyKind, ([], w))).
Proof.
  assert (H : forall s : State (W := W), get_boxers s = (Ok (fst s), s)).
  { intros [ring w]. destruct ring; reflexivity. }
  split; [exact H |]. intros w. rewrite H. split; [reflexivity | discriminate].
Qed.

(** C10: from the empty ring of a new [RingModel], no sequence of calls of
    [enter_ring], [get_boxers], [fight] and [clear_ring] makes the ring
    longer than two; every call leaves the ring's length or lowers it, but
    [enter_ring], which may add one when the length is below two. *)
Theorem C10_ring_size_invariant {W : Type}
    (get_random : list Z -> M W float) (update_boxer_stats : Z -> string -> M W unit)
    (libm_pow : float -> float -> float) :
  (forall (cs : list call) (w : W),
      (length (fst (exec_all get_random update_boxer_stats libm_pow cs
                      (RingModel_init w))) <= 2)%nat)
  /\ (forall (c : call) (s : State),
      let n := length (fst s) in
      let n' := length (fst (exec get_random update_boxer_stats libm_pow c s)) in
      match c with
      | call_enter_ring _ => n' = n \/ (n' = S n /\ (n < 2)%nat)
      | _ => (n' <= n)%nat
      end).
Proof.
  split.
  - intros cs w. apply exec_all_ring_size. cbn. lia.
  - intros c s. apply exec_ring_size.
Qed.

(** C9, as stated, fails in binary64.  For the two boxers of the test
    fixture the skill gap is 630.71: whatever the C library's [pow], if its
    value for [e ** -630.71] is between zero and [2^-54] (the real number
    is about [1e-274]), then [1 + e ** -delta] rounds to one and [p] is
    exactly 1.0, not below it.  For an infinite gap CPython itself gives
    [e ** -inf = 0.0] and [p = 1.0], so the claim fails for every [pow].
    At the other end, for the smallest positive gap, a [pow] that returns
    the correctly rounded [e ** -delta = 1.0] gives [p] exactly 0.5, not
    above it. *)
Lemma C9_counterexample :
  (get_fighting_skill sample_boxer1 = Ok expected_skill1
   /\ get_fighting_skill sample_boxer2 = Ok expected_skill2
   /\ let delta := abs (expected_skill1 - expected_skill2) in
   (0 <? delta)%float = true
   /\ forall libm_pow : float -> float -> float,
       (0 <=? libm_pow math_e (- delta))%float = true ->
       (libm_pow math_e (- delta) <=? 0x1p-54)%float = true ->
       spec.logistic libm_pow delta = 1%float
       /\ (spec.logistic libm_pow delta <? 1)%float = false)
  /\ (forall libm_pow : float -> float -> float,
         (0 <? abs (infinity - 0))%float = true
         /\ spec.logistic libm_pow (abs (infinity - 0)) = 1%float)
  /\ (let delta := abs (0x1p-1074 - 0)%float in
      (0 <? delta)%float = true
      /\ forall libm_pow : float -> float -> float,
          libm_pow math_e (- delta)%float = 1%float ->
          spec.logistic libm_pow delta = 0.5%float
          /\ (0.5 <? spec.logistic libm_pow delta)%float = false)
  /\ ~ (forall (libm_pow : float -> float -> float) (skill1 skill2 : float),
           spec.logistic_in_open_interval libm_pow skill1 skill2).
Proof.
  split; [| split; [| split]].
  - cbv zeta. split; [exact skill_sample_boxer1 |].
    split; [exact skill_sample_boxer2 |].
    split; [vm_compute; reflexivity |].
    intros libm_pow H0 H1.
    assert (E : spec.logistic libm_pow
                  (abs (expected_skill1 - expected_skill2)%float) = 1%float).
    { unfold spec.logistic.
      replace (float_pow_e libm_pow (- abs (expected_skill1 - expected_skill2))%float)
        with (libm_pow math_e (- abs (expected_skill1 - expected_skill2))%float)
        by reflexivity.
      rewrite (float_add_one_tiny _ H0 H1). reflexivity. }
    rewrite E. split; reflexivity.
  - intros libm_pow. split; reflexivity.
  - cbv zeta. split; [reflexivity |]. intros libm_pow H.
    assert (E : spec.logistic libm_pow (abs (0x1p-1074 - 0)%float) = 0.5%float).
    { unfold spec.logistic.
      replace (float_pow_e libm_pow (- abs (0x1p-1074 - 0))%float)
        with (libm_pow math_e (- abs (0x1p-1074 - 0))%float) by reflexivity.
      rewrite H. reflexivity. }
    rewrite E. split; reflexivity.
  - intros H. specialize (H pow_underflow infinity 0%float).
    destruct H as [H _]. destruct (H eq_refl) as [_ H1]. discriminate H1.
Qed.

(** C9, amended: for all skills, with [delta = |skill1 - skill2|], the
    binary64 value [p = 1 / (1 + e ** -delta)] is exactly 0.5 when [delta]
    is zero; it lies in the closed interval from 0.5 to 1.0 whenever the
    computed [e ** -delta] lies between zero and one; and it is exactly 1.0
    once the computed [e ** -delta] is at most [2^-54]. *)
Theorem C9_logistic_closed_interval
    (libm_pow : float -> float -> float) (skill1 skill2 : float) :
  let delta := abs (skill1 - skill2) in
  let x := float_pow_e libm_pow (- delta) in
  let p := spec.logistic libm_pow delta in
  ((delta =? 0)%float = true -> p = 0.5%float)
  /\ ((0 <=? x)%float = true -> (x <=? 1)%float = true ->
      (0.5 <=? p)%float = true /\ (p <=? 1)%float = true)
  /\ ((0 <=? x)%float = true -> (x <=? 0x1p-54)%float = true -> p = 1%float).
Proof.
  intros delta x p. subst p. unfold spec.logistic. fold x.
  split; [| split].
  - intros H. subst x. unfold float_pow_e.
    rewrite (float_eqb_zero_opp _ H). reflexivity.
  - intros H0 H1. apply float_logistic_bounds; assumption.
  - intros H0 H1. rewrite (float_add_one_tiny _ H0 H1). reflexivity.
Qed.

(** The skills of the two boxers of the test fixture, with a [pow] that
    underflows: [p] is 1.0; and the first skill against itself: [p] is
    0.5. *)
Lemma C9_witness :
  spec.win_probability pow_underflow expected_skill1 expected_skill2 = 1%float
  /\ spec.win_probability pow_underflow expected_skill1 expected_skill1 = 0.5%float
  /\ ((0.5 <=? spec.win_probability pow_underflow expected_skill1 expected_skill2)%float
      = true
      /\ (spec.win_probability pow_underflow expected_skill1 expected_skill2 <=? 1)%float
         = true).
Proof.
  split; [| split].
  - apply (proj2 (proj2 (C9_logistic_closed_interval pow_underflow
                           expected_skill1 expected_skill2)));
      vm_compute; reflexivity.
  - apply (proj1 (C9_logistic_closed_interval pow_underflow
                    expected_skill1 expected_skill1)).
    vm_compute. reflexivity.
  - apply (proj1 (proj2 (C9_logistic_closed_interval pow_underflow
                           expected_skill1 expected_skill2)));
      vm_compute; reflexivity.
Defined.

(** * Further properties of the code *)

(** ** Binary64: symmetry of the absolute difference, NaN, one half *)

Lemma binary_round_aux_abs (m e : Z) (l : location) :
  SFabs (binary_round_aux prec emax true m e l)
  = SFabs (binary_round_aux prec emax false m e l).
Proof.
  unfold binary_round_aux.
  destruct (shr_fexp prec emax m e l) as [mrs' e'].
  destruct (shr_fexp prec emax _ e' loc_Exact) as [mrs'' e''].
  destruct (shr_m mrs''); try reflexivity.
  destruct (e'' <=? emax - prec); reflexivity.
Qed.

Lemma binary_normalize_abs_opp (z e : Z) :
  SFabs (binary_normalize prec emax (- z) e false)
  = SFabs (binary_normalize prec emax z e false).
Proof.
  destruct z as [| p | p]; [reflexivity | |].
  - change (- Z.pos p) with (Z.neg p). cbn [binary_normalize]. unfold binary_round.
    destruct (shl_align p e _) as [mz ez]. apply binary_round_aux_abs.
  - change (- Z.neg p) with (Z.pos p). cbn [binary_normalize]. unfold binary_round.
    destruct (shl_align p e _) as [mz ez]. symmetry. apply binary_round_aux_abs.
Qed.

Lemma SFsub_abs_sym (x y : spec_float) :
  SFabs (SF64sub x y) = SFabs (SF64sub y x).
Proof.
  destruct x as [sx | sx | | sx mx ex], y as [sy | sy | | sy my ey];
    try reflexivity;
    try (destruct sx; reflexivity); try (destruct sy; reflexivity);
    try (destruct sx, sy; reflexivity).
  unfold SF64sub, SFsub. rewrite (Z.min_comm ey ex).
  rewrite <- binary_normalize_abs_opp. f_equal. f_equal. lia.
Qed.

Lemma float_abs_sub_sym (a b : float) : abs (a - b) = abs (b - a).
Proof.
  apply Prim2SF_inj.
  rewrite !FloatAxioms.abs_spec, !FloatAxioms.sub_spec. apply SFsub_abs_sym.
Qed.

Lemma SFcompare_refl (f : spec_float) : f <> S754_nan -> SFcompare f f = Some Eq.
Proof.
  destruct f as [s | s | | s m e]; intros H; try congruence;
    try (destruct s; reflexivity).
  cbn [SFcompare]. rewrite Z.compare_refl.
  change (Pos.compare_cont Eq m m) with (Pos.compare m m).
  rewrite Pos.compare_refl. destruct s; reflexivity.
Qed.

(** A NaN is below nothing. *)
Lemma float_ltb_nan (r p : float) : is_nan r = true -> (r <? p)%float = false.
Proof.
  unfold is_nan. rewrite FloatAxioms.eqb_spec, FloatAxioms.ltb_spec.
  unfold SFeqb, SFltb. intros H.
  destruct (Prim2SF r) as [s | s | | s m e] eqn:E; [| | reflexivity |];
    rewrite SFcompare_refl in H by discriminate; discriminate.
Qed.

(** What is below one half is below every value from one half to one. *)
Lemma SFltb_half_binade (f g : spec_float) :
  SFltb f SF_half = true -> in_binade (-53) g -> SFltb f g = true.
Proof.
  intros Hf Hg. unfold SFltb in *.
  assert (K : forall (m1 m2 : positive) (e1 e2 : Z),
             SFcompare (S754_finite false m1 e1) (S754_finite false m2 e2) = Some Lt
             <-> e1 < e2 \/ (e1 = e2 /\ Z.pos m1 < Z.pos m2)).
  { intros m1 m2 e1 e2. cbn [SFcompare].
    change (Pos.compare_cont Eq m1 m2) with (Pos.compare m1 m2).
    destruct (Z.compare_spec e1 e2); [| split; intros; [lia | reflexivity] |].
    - destruct (Pos.compare_spec m1 m2); split; intros [|[]] || intros; try lia;
        try discriminate; reflexivity.
    - split; intros; [discriminate | lia]. }
  destruct f as [s | s | | s m e]; try discriminate.
  - destruct Hg as [(mg & -> & _) | ->]; reflexivity.
  - destruct s; [| discriminate].
    destruct Hg as [(mg & -> & _) | ->]; reflexivity.
  - destruct s.
    + destruct Hg as [(mg & -> & _) | ->]; reflexivity.
    + unfold SF_half in Hf.
      destruct (SFcompare (S754_finite false m e) _) as [[] |] eqn:E in Hf;
        try discriminate.
      apply K in E.
      destruct Hg as [(mg & -> & Hm) | ->].
      * replace (SFcompare _ _) with (Some Lt); [reflexivity |].
        symmetry. apply K. lia.
      * replace (SFcompare _ _) with (Some Lt); [reflexivity |].
        symmetry. apply K. lia.
Qed.

Lemma float_ltb_half_logistic (r x : float) :
  (0 <=? x)%float = true -> (x <=? 1)%float = true ->
  (r <? 0.5)%float = true -> (r <? 1 / (1 + x))%float = true.
Proof.
  rewrite !FloatAxioms.leb_spec, !FloatAxioms.ltb_spec. intros H0 H1 Hr.
  rewrite FloatAxioms.div_spec, FloatAxioms.add_spec.
  apply SFltb_half_binade; [exact Hr |].
  apply SFdiv_one_binade, SFadd_one_binade; [apply Prim2SF_valid | exact H0 | exact H1].
Qed.

(** ** The ring *)

(** X1: for two boxers whose skills are computed, the normalized skill gap
    is the same whichever boxer entered first, so the draw favours the
    order of entry, not the stronger boxer: on the same draw, the first
    entrant wins in the ring [c1; c2] exactly when the first entrant wins
    in the ring [c2; c1]. *)
Theorem X1_fight_favours_entry_order {W : Type}
    (get_random : list Z -> M W float) (update_boxer_stats : Z -> string -> M W unit)
    (libm_pow : float -> float -> float) (c1 c2 : Boxer) (skill_1 skill_2 : float)
    (w w1 : W) (r : float) :
  get_fighting_skill c1 = Ok skill_1 -> get_fighting_skill c2 = Ok skill_2 ->
  get_random [] w = (Ok r, w1) ->
  spec.win_probability libm_pow skill_1 skill_2
  = spec.win_probability libm_pow skill_2 skill_1
  /\ ((r <? spec.win_probability libm_pow skill_1 skill_2)%float = true ->
      fight get_random update_boxer_stats libm_pow ([c1; c2], w)
      = spec.record_outcome update_boxer_stats c1 c2 ([c1; c2], w1)
      /\ fight get_random update_boxer_stats libm_pow ([c2; c1], w)
         = spec.record_outcome update_boxer_stats c2 c1 ([c2; c1], w1))
  /\ ((r <? spec.win_probability libm_pow skill_1 skill_2)%float = false ->
      fight get_random update_boxer_stats libm_pow ([c1; c2], w)
      = spec.record_outcome update_boxer_stats c2 c1 ([c1; c2], w1)
      /\ fight get_random update_boxer_stats libm_pow ([c2; c1], w)
         = spec.record_outcome update_boxer_stats c1 c2 ([c2; c1], w1)).
Proof.
  intros Hs1 Hs2 Hr.
  assert (E : spec.win_probability libm_pow skill_1 skill_2
              = spec.win_probability libm_pow skill_2 skill_1).
  { unfold spec.win_probability. f_equal. apply float_abs_sub_sym. }
  split; [exact E |].
  rewrite (fight_two_skills _ _ _ _ _ _ _ _ Hs1 Hs2),
    (fight_two_skills _ _ _ _ _ _ _ _ Hs2 Hs1), Hr, <- E.
  split; intros H; rewrite H; split; reflexivity.
Qed.

(** The fixture boxers in both orders, with the draw 0.4: the first
    entrant wins each time, the weaker "Boxer One" as well as the stronger
    "Boxer Two". *)
Lemma X1_witness :
  fight (patched_get_random draw_low) mock_update_boxer_stats pow_underflow
    ([sample_boxer1; sample_boxer2], [])
  = (Ok "Boxer One", ([], [(1, "win"); (2, "loss")]))
  /\ fight (patched_get_random draw_low) mock_update_boxer_stats pow_underflow
       ([sample_boxer2; sample_boxer1], [])
     = (Ok "Boxer Two", ([], [(2, "win"); (1, "loss")])).
Proof.
  destruct (proj1 (proj2 (X1_fight_favours_entry_order (patched_get_random draw_low)
                            mock_update_boxer_stats pow_underflow
                            sample_boxer1 sample_boxer2 expected_skill1 expected_skill2
                            [] [] draw_low skill_sample_boxer1 skill_sample_boxer2
                            eq_refl)))
    as [E1 E2].
  - vm_compute. reflexivity.
  - split.
    + rewrite E1. vm_compute. reflexivity.
    + rewrite E2. vm_compute. reflexivity.
Defined.

(** X2: when the computed [e ** -delta] lies between zero and one, every
    draw below one half makes the first entrant win, whatever the two
    computed skills. *)
Theorem X2_fight_low_draw_first_entrant_wins {W : Type}
    (get_random : list Z -> M W float) (update_boxer_stats : Z -> string -> M W unit)
    (libm_pow : float -> float -> float) (c1 c2 : Boxer) (skill_1 skill_2 : float)
    (w w1 : W) (r : float) :
  get_fighting_skill c1 = Ok skill_1 -> get_fighting_skill c2 = Ok skill_2 ->
  get_random [] w = (Ok r, w1) ->
  let x := float_pow_e libm_pow (- abs (skill_1 - skill_2))%float in
  (0 <=? x)%float = true -> (x <=? 1)%float = true ->
  (r <? 0.5)%float = true ->
  fight get_random update_boxer_stats libm_pow ([c1; c2], w)
  = spec.record_outcome update_boxer_stats c1 c2 ([c1; c2], w1).
Proof.
  intros Hs1 Hs2 Hr x H0 H1 Hlow. rewrite (fight_two_skills _ _ _ _ _ _ _ _ Hs1 Hs2), Hr.
  unfold spec.win_probability, spec.logistic. fold x.
  rewrite (float_ltb_half_logistic r x H0 H1 Hlow). reflexivity.
Qed.

Lemma X2_witness :
  fight (patched_get_random draw_low) mock_update_boxer_stats pow_underflow
    ([sample_boxer2; sample_boxer1], [])
  = spec.record_outcome mock_update_boxer_stats sample_boxer2 sample_boxer1
      ([sample_boxer2; sample_boxer1], []).
Proof.
  apply (X2_fight_low_draw_first_entrant_wins (patched_get_random draw_low)
           mock_update_boxer_stats pow_underflow sample_boxer2 sample_boxer1
           expected_skill2 expected_skill1 [] [] draw_low
           skill_sample_boxer2 skill_sample_boxer1 eq_refl); vm_compute; reflexivity.
Defined.

(** X3: once the computed [e ** -delta] of the two computed skills is at
    most [2^-54] (a skill gap above 37.5 or so), every draw below 1.0 makes
    the first entrant win. *)
Theorem X3_fight_large_gap_first_entrant_wins {W : Type}
    (get_random : list Z -> M W float) (update_boxer_stats : Z -> string -> M W unit)
    (libm_pow : float -> float -> float) (c1 c2 : Boxer) (skill_1 skill_2 : float)
    (w w1 : W) (r : float) :
  get_fighting_skill c1 = Ok skill_1 -> get_fighting_skill c2 = Ok skill_2 ->
  get_random [] w = (Ok r, w1) ->
  let x := float_pow_e libm_pow (- abs (skill_1 - skill_2))%float in
  (0 <=? x)%float = true -> (x <=? 0x1p-54)%float = true ->
  (r <? 1)%float = true ->
  fight get_random update_boxer_stats libm_pow ([c1; c2], w)
  = spec.record_outcome update_boxer_stats c1 c2 ([c1; c2], w1).
Proof.
  intros Hs1 Hs2 Hr x H0 H1 Hlow. rewrite (fight_two_skills _ _ _ _ _ _ _ _ Hs1 Hs2), Hr.
  unfold spec.win_probability, spec.logistic. fold x.
  rewrite (float_add_one_tiny x H0 H1).
  change (1 / 1)%float with 1%float. rewrite Hlow. reflexivity.
Qed.

Lemma X3_witness :
  fight (patched_get_random draw_high) mock_update_boxer_stats pow_underflow
    ([sample_boxer1; sample_boxer2], [])
  = spec.record_outcome mock_update_boxer_stats sample_boxer1 sample_boxer2
      ([sample_boxer1; sample_boxer2], []).
Proof.
  apply (X3_fight_large_gap_first_entrant_wins (patched_get_random draw_high)
           mock_update_boxer_stats pow_underflow sample_boxer1 sample_boxer2
           expected_skill1 expected_skill2 [] [] draw_high
           skill_sample_boxer1 skill_sample_boxer2 eq_refl); vm_compute; reflexivity.
Defined.

(** X4: between two boxers whose skills are computed, a draw that is not
    a number makes the second entrant win. *)
Theorem X4_fight_nan_draw_second_entrant_wins {W : Type}
    (get_random : list Z -> M W float) (update_boxer_stats : Z -> string -> M W unit)
    (libm_pow : float -> float -> float) (c1 c2 : Boxer) (skill_1 skill_2 : float)
    (w w1 : W) (r : float) :
  get_fighting_skill c1 = Ok skill_1 -> get_fighting_skill c2 = Ok skill_2 ->
  get_random [] w = (Ok r, w1) -> is_nan r = true ->
  fight get_random update_boxer_stats libm_pow ([c1; c2], w)
  = spec.record_outcome update_boxer_stats c2 c1 ([c1; c2], w1).
Proof.
  intros Hs1 Hs2 Hr Hnan.
  rewrite (fight_two_skills _ _ _ _ _ _ _ _ Hs1 Hs2), Hr, (float_ltb_nan r _ Hnan).
  reflexivity.
Qed.

Lemma X4_witness :
  fight (patched_get_random nan) mock_update_boxer_stats pow_underflow (sample_ring, [])
  = (Ok "Boxer Two", ([], [(2, "win"); (1, "loss")])).
Proof.
  unfold sample_ring.
  rewrite (X4_fight_nan_draw_second_entrant_wins (patched_get_random nan)
             mock_update_boxer_stats pow_underflow sample_boxer1 sample_boxer2
             expected_skill1 expected_skill2 [] [] nan
             skill_sample_boxer1 skill_sample_boxer2 eq_refl eq_refl).
  vm_compute. reflexivity.
Defined.

(** X5: when the random provider is called (the two skills are computed)
    and raises, [fight] raises the same exception, the ring keeps its two
    boxers and nothing is recorded: the world is as the provider left
    it. *)
Theorem X5_fight_draw_failure_propagates {W : Type}
    (get_random : list Z -> M W float) (update_boxer_stats : Z -> string -> M W unit)
    (libm_pow : float -> float -> float) (c1 c2 : Boxer) (skill_1 skill_2 : float)
    (w w1 : W) (e : exn) :
  get_fighting_skill c1 = Ok skill_1 -> get_fighting_skill c2 = Ok skill_2 ->
  get_random [] w = (Raise e, w1) ->
  fight get_random update_boxer_stats libm_pow ([c1; c2], w)
  = (Raise e, ([c1; c2], w1)).
Proof.
  intros Hs1 Hs2 Hr. rewrite (fight_two_skills _ _ _ _ _ _ _ _ Hs1 Hs2), Hr. reflexivity.
Qed.

Lemma X5_witness :
  fight (fun args => raise (RuntimeError "Request to random.org timed out."))
    mock_update_boxer_stats pow_underflow (sample_ring, [])
  = (Raise (RuntimeError "Request to random.org timed out."), (sample_ring, [])).
Proof.
  apply (X5_fight_draw_failure_propagates
           (fun args => raise (RuntimeError "Request to random.org timed out."))
           mock_update_boxer_stats pow_underflow sample_boxer1 sample_boxer2
           expected_skill1 expected_skill2 [] [] _
           skill_sample_boxer1 skill_sample_boxer2 eq_refl).
Defined.

(** X6: with more than two boxers in the ring (the tests fill [ring]
    directly), [fight] raises the [ValueError] of the unpacking, not the one
    of the missing boxers; nothing is drawn, recorded or cleared. *)
Theorem X6_fight_crowded_ring {W : Type}
    (get_random : list Z -> M W float) (update_boxer_stats : Z -> string -> M W unit)
    (libm_pow : float -> float -> float) (s : State) :
  (2 < length (fst s))%nat ->
  fight get_random update_boxer_stats libm_pow s
  = (Raise (ValueError "too many values to unpack (expected 2)"), s)
  /\ fight get_random update_boxer_stats libm_pow s
     <> (Raise spec.InsufficientContestantsKind, s).
Proof.
  intros H. rewrite fight_long by exact H. split; [reflexivity | discriminate].
Qed.

Lemma X6_witness :
  fight (patched_get_random draw_low) mock_update_boxer_stats pow_underflow
    ([sample_boxer1; sample_boxer2; sample_twin], [])
  = (Raise (ValueError "too many values to unpack (expected 2)"),
     ([sample_boxer1; sample_boxer2; sample_twin], [])).
Proof.
  apply (X6_fight_crowded_ring (patched_get_random draw_low) mock_update_boxer_stats
           pow_underflow ([sample_boxer1; sample_boxer2; sample_twin], [])).
  cbn. lia.
Defined.

(** X7: [enter_ring], [get_boxers] and [clear_ring] never touch the world
    outside the ring; [clear_ring] never raises and always leaves the ring
    empty. *)
Theorem X7_ring_methods_leave_world {W : Type} (s : State (W := W)) :
  clear_ring s = (Ok tt, ([], snd s))
  /\ (forall boxer : pyobj, snd (snd (enter_ring boxer s)) = snd s)
  /\ snd (snd (get_boxers s)) = snd s.
Proof.
  destruct s as [ring w]. split; [| split].
  - destruct ring; reflexivity.
  - intros [b | ty]; [| reflexivity]. destruct ring as [| b1 [| b2 ring]]; reflexivity.
  - destruct ring; reflexivity.
Qed.

Lemma exec_ring_shape {W : Type}
    (get_random : list Z -> M W float) (update_boxer_stats : Z -> string -> M W unit)
    (libm_pow : float -> float -> float) (c : call) (s : State) :
  let ring' := fst (exec get_random update_boxer_stats libm_pow c s) in
  ring' = fst s \/ ring' = []
  \/ exists b : Boxer, c = call_enter_ring (PyBoxer b) /\ ring' = (fst s ++ [b])%list.
Proof.
  destruct s as [ring w]. destruct c as [[b | ty] | | |]; cbn [exec].
  - destruct ring as [| b1 [| b2 ring]]; cbn; eauto.
  - left. reflexivity.
  - left. destruct ring; reflexivity.
  - cbn zeta. destruct ring as [| c1 [| c2 [| c3 ring]]].
    + rewrite fight_short by (cbn; lia). auto.
    + rewrite fight_short by (cbn; lia). auto.
    + rewrite fight_two.
      destruct (get_fighting_skill c1) as [s1 | e]; [| auto].
      destruct (get_fighting_skill c2) as [s2 | e]; [| auto].
      destruct (get_random [] w) as [[r | e] w1]; [| auto].
      destruct (r <? _)%float;
        match goal with
        | |- context [spec.record_outcome ?u ?a ?b ?st] =>
            destruct (record_outcome_ring u a b st) as [E | E]; rewrite E
        end; auto.
    + rewrite fight_long by (cbn; lia). auto.
  - right. left. destruct ring; reflexivity.
Qed.

(** X8: whatever the calls made on a new [RingModel], every boxer in the
    ring was passed to one of the [enter_ring] calls. *)
Theorem X8_ring_holds_entered_boxers {W : Type}
    (get_random : list Z -> M W float) (update_boxer_stats : Z -> string -> M W unit)
    (libm_pow : float -> float -> float) (cs : list call) (w : W) (b : Boxer) :
  In b (fst (exec_all get_random update_boxer_stats libm_pow cs (RingModel_init w))) ->
  In (call_enter_ring (PyBoxer b)) cs.
Proof.
  assert (G : forall (cs : list call) (s : State),
             In b (fst (exec_all get_random update_boxer_stats libm_pow cs s)) ->
             In b (fst s) \/ In (call_enter_ring (PyBoxer b)) cs).
  { clear cs w. induction cs as [| c cs IH]; intros s H; [left; exact H |].
    cbn [exec_all fold_left] in H. apply IH in H as [H | H]; [| right; right; exact H].
    destruct (exec_ring_shape get_random update_boxer_stats libm_pow c s)
      as [E | [E | (b' & -> & E)]]; cbv zeta in E; rewrite E in H.
    - left. exact H.
    - destruct H.
    - apply in_app_or in H as [H | [<- | []]]; [left; exact H | right; left; reflexivity]. }
  intros H. apply G in H as [[] | H]. exact H.
Qed.

Lemma X8_witness :
  In (call_enter_ring (PyBoxer sample_boxer2))
     [call_enter_ring (PyBoxer sample_boxer1); call_clear_ring;
      call_enter_ring (PyOther "dict"); call_enter_ring (PyBoxer sample_boxer2)].
Proof.
  apply (X8_ring_holds_entered_boxers (patched_get_random draw_low)
           mock_update_boxer_stats pow_underflow _ [] sample_boxer2).
  vm_compute. left. reflexivity.
Defined.

(** ** The boxers table *)

Lemma result_is_win_or_loss (result_ : string) :
  negb (String.eqb result_ "win" || String.eqb result_ "loss") = false ->
  result_ = "win" \/ result_ = "loss".
Proof.
  intros H. apply negb_false_iff, orb_true_iff in H as [H | H];
    apply String.eqb_eq in H; auto.
Qed.

(** X9: for a known id and the results ['win'] and ['loss'],
    [update_boxer_stats] succeeds; it adds one fight, and one win for a
    win only, to that row, and leaves every other row as it was. *)
Theorem X9_update_boxer_stats_known_id
    (tbl : Table) (boxer_id : Z) (row : Row) :
  tbl !! boxer_id = Some row ->
  (exists tbl',
      update_boxer_stats None boxer_id "win" tbl = (Ok tt, tbl')
      /\ tbl' !! boxer_id = Some (mkRow (fights row + 1) (wins row + 1))
      /\ forall other, other <> boxer_id -> tbl' !! other = tbl !! other)
  /\ (exists tbl',
      update_boxer_stats None boxer_id "loss" tbl = (Ok tt, tbl')
      /\ tbl' !! boxer_id = Some (mkRow (fights row + 1) (wins row))
      /\ forall other, other <> boxer_id -> tbl' !! other = tbl !! other).
Proof.
  intros H. split; eexists; (split; [unfold update_boxer_stats; cbn; rewrite H; reflexivity |]);
    (split; [apply lookup_insert_eq | intros other Hne; apply lookup_insert_ne; congruence]).
Qed.

Lemma X9_witness :
  update_boxer_stats None 1 "win" {[ 1 := mkRow 3 2; 2 := mkRow 5 0 ]}
  = (Ok tt, {[ 1 := mkRow 4 3; 2 := mkRow 5 0 ]}).
Proof.
  assert (H : ({[ 1 := mkRow 3 2; 2 := mkRow 5 0 ]} : Table) !! 1 = Some (mkRow 3 2))
    by (vm_compute; reflexivity).
  destruct (proj1 (X9_update_boxer_stats_known_id _ 1 (mkRow 3 2) H)) as (tbl' & E & _).
  vm_compute. reflexivity.
Defined.



(** X11: [update_boxer_stats] keeps the counters consistent: if no row
    has more wins than fights or a negative count before the call, none has
    after it, whatever the arguments and the outcome. *)
Theorem X11_update_boxer_stats_keeps_counters_consistent
    (conn : option string) (boxer_id : Z) (result_ : string) (tbl : Table) :
  counters_consistent tbl ->
  counters_consistent (snd (update_boxer_stats conn boxer_id result_ tbl)).
Proof.
  intros H. unfold update_boxer_stats, counters_consistent, Table in *.
  destruct (negb _); [exact H |].
  destruct conn; [exact H |].
  destruct (tbl !! boxer_id) as [row |] eqn:E; [| exact H].
  pose proof (H _ _ E) as Hrow.
  destruct (String.eqb result_ "win"); cbn [snd]; intros j r Hj;
    (destruct (decide (boxer_id = j)) as [-> | Hne];
     [rewrite lookup_insert_eq in Hj; injection Hj as <-; cbn; lia
     | rewrite lookup_insert_ne in Hj by exact Hne; exact (H _ _ Hj)]).
Qed.

Lemma X11_witness :
  counters_consistent (snd (update_boxer_stats None 1 "loss" {[ 1 := mkRow 3 2 ]})).
Proof.
  apply X11_update_boxer_stats_keeps_counters_consistent.
  intros j r Hj. apply lookup_singleton_Some in Hj as [_ <-]. cbn. lia.
Defined.

Lemma update_boxer_stats_table
    (conn : option string) (boxer_id : Z) (result_ : string) (tbl : Table) :
  snd (update_boxer_stats conn boxer_id result_ tbl)
  = if negb (String.eqb result_ "win" || String.eqb result_ "loss") then tbl
    else match conn with
         | Some _ => tbl
         | None =>
             alter (fun row => mkRow (fights row + 1)
                                 (if String.eqb result_ "win"
                                  then wins row + 1 else wins row))
               boxer_id tbl
         end.
Proof.
  unfold update_boxer_stats, Table in *.
  destruct (negb _); [reflexivity |].
  destruct conn; [reflexivity |].
  destruct (tbl !! boxer_id) as [row |] eqn:E.
  - destruct (String.eqb result_ "win"); cbn [snd];
      apply map_eq; intros k; destruct (decide (boxer_id = k)) as [<- | Hne];
      rewrite ?lookup_insert_eq, ?lookup_alter_eq, ?E,
        ?lookup_insert_ne, ?lookup_alter_ne by exact Hne; reflexivity.
  - cbn [snd]. apply map_eq; intros k; destruct (decide (boxer_id = k)) as [<- | Hne];
      rewrite ?lookup_alter_eq, ?E, ?lookup_alter_ne by exact Hne; reflexivity.
Qed.

(** X12: two updates of different boxers may be done in either order: the
    table that results is the same, whether or not the calls succeed. *)
Theorem X12_update_boxer_stats_commute
    (conn : option string) (id1 id2 : Z) (res1 res2 : string) (tbl : Table) :
  id1 <> id2 ->
  snd (update_boxer_stats conn id2 res2 (snd (update_boxer_stats conn id1 res1 tbl)))
  = snd (update_boxer_stats conn id1 res1 (snd (update_boxer_stats conn id2 res2 tbl))).
Proof.
  intros Hne. rewrite !update_boxer_stats_table. unfold Table in *.
  destruct (negb (String.eqb res1 "win" || String.eqb res1 "loss")),
           (negb (String.eqb res2 "win" || String.eqb res2 "loss"));
    try reflexivity.
  destruct conn; [reflexivity |].
  apply alter_alter_ne. congruence.
Qed.

Lemma X12_witness :
  snd (update_boxer_stats None 2 "loss"
         (snd (update_boxer_stats None 1 "win" {[ 1 := mkRow 0 0; 2 := mkRow 0 0 ]})))
  = snd (update_boxer_stats None 1 "win"
           (snd (update_boxer_stats None 2 "loss" {[ 1 := mkRow 0 0; 2 := mkRow 0 0 ]}))).
Proof.
  apply (X12_update_boxer_stats_commute None 1 2 "win" "loss"). discriminate.
Defined.

(** ** A fight and the table *)

Lemma deployed_update_known (w : deployed.World) (boxer_id : Z) (row : Row) :
  deployed.boxers w !! boxer_id = Some row ->
  deployed.update_boxer_stats None boxer_id "win" w
  = (Ok tt, deployed.mkWorld (deployed.net w)
              (<[boxer_id := mkRow (fights row + 1) (wins row + 1)]> (deployed.boxers w)))
  /\ deployed.update_boxer_stats None boxer_id "loss" w
     = (Ok tt, deployed.mkWorld (deployed.net w)
                 (<[boxer_id := mkRow (fights row + 1) (wins row)]> (deployed.boxers w))).
Proof.
  intros H. unfold deployed.update_boxer_stats, update_boxer_stats. cbn.
  rewrite H. split; reflexivity.
Qed.

Lemma deployed_update_unknown (w : deployed.World) (boxer_id : Z) (result_ : string) :
  deployed.boxers w !! boxer_id = None ->
  exists e, deployed.update_boxer_stats None boxer_id result_ w = (Raise e, w).
Proof.
  intros H. unfold deployed.update_boxer_stats, update_boxer_stats.
  destruct w as [n t]. cbn [deployed.boxers deployed.net] in *.
  destruct (negb _); [eexists; reflexivity |]. cbn. rewrite H. eexists. reflexivity.
Qed.

(** X13: a fight between two boxers of different ids, both in the table,
    succeeds once the skills are computed and the draw is returned: the
    winner's row gains a fight and a win, the loser's row a fight, the
    network is as the draw left it, the ring is empty and the winner's name
    is returned. *)
Theorem X13_fight_updates_both_rows
    (get_random : list Z -> M deployed.World float) (libm_pow : float -> float -> float)
    (c1 c2 : Boxer) (skill_1 skill_2 : float) (w w1 : deployed.World) (r : float)
    (row_w row_l : Row) :
  get_fighting_skill c1 = Ok skill_1 -> get_fighting_skill c2 = Ok skill_2 ->
  get_random [] w = (Ok r, w1) ->
  let first_wins := (r <? spec.win_probability libm_pow skill_1 skill_2)%float in
  let winner := if first_wins then c1 else c2 in
  let loser := if first_wins then c2 else c1 in
  deployed.boxers w1 !! id winner = Some row_w ->
  deployed.boxers w1 !! id loser = Some row_l ->
  id winner <> id loser ->
  fight get_random (deployed.update_boxer_stats None) libm_pow ([c1; c2], w)
  = (Ok (name winner),
     ([], deployed.mkWorld (deployed.net w1)
            (<[id loser := mkRow (fights row_l + 1) (wins row_l)]>
               (<[id winner := mkRow (fights row_w + 1) (wins row_w + 1)]>
                  (deployed.boxers w1))))).
Proof.
  intros Hs1 Hs2 Hr first_wins winner loser Hw Hl Hne.
  rewrite (fight_two_skills _ _ _ _ _ _ _ _ Hs1 Hs2), Hr. fold first_wins.
  assert (E : (if first_wins
               then spec.record_outcome (deployed.update_boxer_stats None) c1 c2
                      ([c1; c2], w1)
               else spec.record_outcome (deployed.update_boxer_stats None) c2 c1
                      ([c1; c2], w1))
              = spec.record_outcome (deployed.update_boxer_stats None) winner loser
                  ([c1; c2], w1)).
  { subst winner loser. destruct first_wins; reflexivity. }
  rewrite E. clear E. unfold spec.record_outcome. cbn [fst snd].
  rewrite (proj1 (deployed_update_known w1 (id winner) row_w Hw)).
  set (w2 := deployed.mkWorld _ _).
  assert (Hl2 : deployed.boxers w2 !! id loser = Some row_l).
  { subst w2. cbn [deployed.boxers]. unfold Table in *.
    rewrite lookup_insert_ne by exact Hne. exact Hl. }
  rewrite (proj2 (deployed_update_known w2 (id loser) row_l Hl2)). reflexivity.
Qed.

(** The fixture boxers, both known to the table with no fight yet. *)
Lemma X13_witness :
  fight (patched_get_random draw_low) (deployed.update_boxer_stats None) pow_underflow
    (sample_ring,
     deployed.mkWorld (api_utils.mkNet [] []) {[ 1 := mkRow 0 0; 2 := mkRow 0 0 ]})
  = (Ok "Boxer One",
     ([], deployed.mkWorld (api_utils.mkNet [] [])
            (<[2 := mkRow 1 0]> (<[1 := mkRow 1 1]> {[ 1 := mkRow 0 0; 2 := mkRow 0 0 ]})))).
Proof.
  generalize (X13_fight_updates_both_rows (patched_get_random draw_low) pow_underflow
                sample_boxer1 sample_boxer2 expected_skill1 expected_skill2
                (deployed.mkWorld (api_utils.mkNet [] [])
                   {[ 1 := mkRow 0 0; 2 := mkRow 0 0 ]}) _
                draw_low (mkRow 0 0) (mkRow 0 0)
                skill_sample_boxer1 skill_sample_boxer2 eq_refl).
  vm_compute. intros H. apply H; congruence.
Defined.





Lemma fight_unknown_boxer_fails
    (get_random : list Z -> M deployed.World float) (libm_pow : float -> float -> float)
    (c1 c2 : Boxer) (w w1 : deployed.World) (r : float) :
  get_random [] w = (Ok r, w1) ->
  deployed.boxers w1 !! id c1 = None \/ deployed.boxers w1 !! id c2 = None ->
  forall (nm : string) (s' : State),
    fight get_random (deployed.update_boxer_stats None) libm_pow ([c1; c2], w)
    <> (Ok nm, s').
Proof.
  intros Hr Hmiss nm s' H.
  apply fight_ok_inv
    in H as (d1 & d2 & s1 & s2 & r' & v1 & v2 & v3 & E & _ & _ & Hr' & H1 & H2 & _).
  cbn [fst snd] in E, Hr'. injection E as <- <-.
  rewrite Hr in Hr'. injection Hr' as <- <-.
  set (first_wins := (r <? spec.win_probability libm_pow s1 s2)%float) in *.
  assert (K1 : forall i res u, deployed.update_boxer_stats None i res w1 = (Ok tt, u) ->
               deployed.boxers w1 !! i <> None).
  { intros i res u Hu Hn.
    destruct (deployed_update_unknown w1 i res Hn) as [e He]. congruence. }
  assert (Hw : deployed.boxers w1 !! id (if first_wins then c1 else c2) <> None)
    by (eapply K1; exact H1).
  assert (Hl : deployed.boxers w1 !! id (if first_wins then c2 else c1) <> None).
  { intros Hn.
    destruct (deployed.boxers w1 !! id (if first_wins then c1 else c2)) as [row |] eqn:Ew;
      [| congruence].
    rewrite (proj1 (deployed_update_known w1 _ row Ew)) in H1. injection H1 as <-.
    assert (Hn2 : deployed.boxers
                    (deployed.mkWorld (deployed.net w1)
                       (<[id (if first_wins then c1 else c2)
                          := mkRow (fights row + 1) (wins row + 1)]> (deployed.boxers w1)))
                  !! id (if first_wins then c2 else c1) = None).
    { cbn [deployed.boxers]. unfold Table in *.
      rewrite lookup_insert_ne by congruence. exact Hn. }
    destruct (deployed_update_unknown _ _ "loss" Hn2) as [e He]. congruence. }
  destruct first_wins, Hmiss; congruence.
Qed.

(** X16: [fight] never succeeds when, after the draw, the table does not
    know one of the two boxers. *)
Theorem X16_fight_needs_both_rows
    (get_random : list Z -> M deployed.World float) (libm_pow : float -> float -> float)
    (c1 c2 : Boxer) (w w1 : deployed.World) (r : float) :
  get_random [] w = (Ok r, w1) ->
  deployed.boxers w1 !! id c1 = None \/ deployed.boxers w1 !! id c2 = None ->
  forall (nm : string) (s' : State),
    fight get_random (deployed.update_boxer_stats None) libm_pow ([c1; c2], w)
    <> (Ok nm, s').
Proof. apply fight_unknown_boxer_fails. Qed.

Lemma X16_witness :
  fight (patched_get_random draw_low) (deployed.update_boxer_stats None) pow_underflow
    (sample_ring, deployed.mkWorld (api_utils.mkNet [] []) {[ 2 := mkRow 0 0 ]})
  <> (Ok "Boxer One", ([], deployed.mkWorld (api_utils.mkNet [] []) {[ 2 := mkRow 1 0 ]})).
Proof.
  apply (X16_fight_needs_both_rows (patched_get_random draw_low) pow_underflow
           sample_boxer1 sample_boxer2
           (deployed.mkWorld (api_utils.mkNet [] []) {[ 2 := mkRow 0 0 ]}) _
           draw_low eq_refl).
  left. vm_compute. reflexivity.
Defined.

(** ** Deleting and reading boxers *)



(** X18: once a boxer of the ring has been deleted from the table,
    recording a result for that id raises, and no fight of that ring succeeds
    (as long as the draw leaves the table alone). *)
Theorem X18_fight_after_delete
    (get_random : list Z -> M deployed.World float) (libm_pow : float -> float -> float)
    (c c1 c2 : Boxer) (n : api_utils.Net) (tbl tbl' : Table)
    (w1 : deployed.World) (r : float) :
  c = c1 \/ c = c2 ->
  delete_boxer None (id c) tbl = (Ok tt, tbl') ->
  get_random [] (deployed.mkWorld n tbl') = (Ok r, w1) ->
  deployed.boxers w1 = tbl' ->
  update_boxer_stats None (id c) "win" tbl'
  = (Raise (ValueError ("Boxer with ID " +:+ pretty (id c) +:+ " not found.")), tbl')
  /\ forall (nm : string) (s' : State),
       fight get_random (deployed.update_boxer_stats None) libm_pow
         ([c1; c2], deployed.mkWorld n tbl')
       <> (Ok nm, s').
Proof.
  intros Hc Hdel Hr Htbl.
  assert (Hmiss : tbl' !! id c = None).
  { revert Hdel. unfold delete_boxer, Table in *. cbv beta iota.
    destruct (tbl !! id c); intros Hdel.
    - injection Hdel as <-. apply lookup_delete_eq.
    - discriminate Hdel. }
  split.
  - unfold update_boxer_stats. cbn. rewrite Hmiss. reflexivity.
  - apply (fight_unknown_boxer_fails get_random libm_pow c1 c2 _ w1 r Hr).
    rewrite Htbl. destruct Hc as [<- | <-]; auto.
Qed.

Lemma X18_witness :
  update_boxer_stats None 2 "win" ({[ 1 := mkRow 0 0 ]} : Table)
  = (Raise (ValueError "Boxer with ID 2 not found."), {[ 1 := mkRow 0 0 ]})
  /\ forall (nm : string) (s' : State),
       fight (patched_get_random draw_low) (deployed.update_boxer_stats None) pow_underflow
         (sample_ring, deployed.mkWorld (api_utils.mkNet [] []) {[ 1 := mkRow 0 0 ]})
       <> (Ok nm, s').
Proof.
  assert (Hdel : delete_boxer None (id sample_boxer2)
                   ({[ 1 := mkRow 0 0; 2 := mkRow 0 0 ]} : Table)
                 = (Ok tt, {[ 1 := mkRow 0 0 ]})) by (vm_compute; reflexivity).
  exact (X18_fight_after_delete (patched_get_random draw_low) pow_underflow
           sample_boxer2 sample_boxer1 sample_boxer2 (api_utils.mkNet [] [])
           _ _ _ draw_low (or_intror eq_refl) Hdel eq_refl eq_refl).
Defined.




(** ** Creating boxers *)

(** X20: fields that fail one of the five checks of [create_boxer] are
    rejected with a [ValueError] before the database is opened: the table
    is unchanged, and neither the connection nor the insertion matters. *)
Theorem X20_create_boxer_rejects_without_database
    (float_repr : float -> string)
    (name : string) (weight height : Z) (reach : float) (age : Z) :
  create_boxer_accepts name weight height reach age = false ->
  exists msg : string,
    forall sql_insert (conn : option string) (tbl : gmap Z BoxerRow),
      create_boxer float_repr sql_insert conn name weight height reach age tbl
      = (Raise (ValueError msg), tbl).
Proof.
  unfold create_boxer_accepts, create_boxer. intros H.
  destruct (strip_is_empty name); [eexists; reflexivity |].
  destruct (Z.ltb_spec weight 125), (Z.leb_spec 125 weight); try lia;
    [eexists; reflexivity |].
  destruct (Z.leb_spec height 0), (Z.ltb_spec 0 height); try lia;
    [eexists; reflexivity |].
  destruct (reach <=? 0)%float; [eexists; reflexivity |].
  cbn [negb andb] in H. rewrite H. eexists. reflexivity.
Qed.

Lemma X20_witness :
  exists msg : string,
    forall sql_insert (conn : option string) (tbl : gmap Z BoxerRow),
      create_boxer (fun _ => "10.9") sql_insert conn "   " 150 62 (reach sample_boxer1) 18 tbl
      = (Raise (ValueError msg), tbl).
Proof.
  apply (X20_create_boxer_rejects_without_database (fun _ => "10.9")
           "   " 150 62 (reach sample_boxer1) 18).
  vm_compute. reflexivity.
Defined.



(** ** Reaches that are not numbers *)

Lemma is_nan_SF (x : float) : is_nan x = true -> Prim2SF x = S754_nan.
Proof.
  unfold is_nan. rewrite FloatAxioms.eqb_spec. unfold SFeqb. intros H.
  destruct (Prim2SF x) as [s | s | | s m e] eqn:E; [| | reflexivity |];
    rewrite SFcompare_refl in H by discriminate; discriminate.
Qed.

Lemma SF_is_nan (x : float) : Prim2SF x = S754_nan -> is_nan x = true.
Proof.
  unfold is_nan. rewrite FloatAxioms.eqb_spec. intros ->. reflexivity.
Qed.

Lemma float_add_nan_r (a b : float) :
  Prim2SF b = S754_nan -> Prim2SF (a + b) = S754_nan.
Proof.
  intros H. rewrite FloatAxioms.add_spec, H.
  destruct (Prim2SF a) as [s | s | | s m e]; reflexivity.
Qed.

Lemma float_add_nan_l (a b : float) :
  Prim2SF a = S754_nan -> Prim2SF (a + b) = S754_nan.
Proof. intros H. rewrite FloatAxioms.add_spec, H. reflexivity. Qed.

Lemma float_sub_nan (a b : float) :
  Prim2SF a = S754_nan \/ Prim2SF b = S754_nan -> Prim2SF (a - b) = S754_nan.
Proof.
  intros [H | H]; rewrite FloatAxioms.sub_spec, H; [reflexivity |].
  destruct (Prim2SF a) as [s | s | | s m e]; reflexivity.
Qed.

Lemma float_div_nan_l (a b : float) :
  Prim2SF a = S754_nan -> Prim2SF (a / b) = S754_nan.
Proof. intros H. rewrite FloatAxioms.div_spec, H. reflexivity. Qed.

Lemma float_div_nan_r (a b : float) :
  Prim2SF b = S754_nan -> Prim2SF (a / b) = S754_nan.
Proof.
  intros H. rewrite FloatAxioms.div_spec, H.
  destruct (Prim2SF a) as [s | s | | s m e]; reflexivity.
Qed.

Lemma float_ltb_nan_r (r p : float) : Prim2SF p = S754_nan -> (r <? p)%float = false.
Proof.
  intros H. rewrite FloatAxioms.ltb_spec, H. unfold SFltb.
  destruct (Prim2SF r) as [s | s | | s m e]; reflexivity.
Qed.


Lemma float_pow_e_nan (libm_pow : float -> float -> float) (w : float) :
  Prim2SF w = S754_nan -> Prim2SF (float_pow_e libm_pow w) = S754_nan.
Proof.
  intros H. unfold float_pow_e.
  rewrite FloatAxioms.eqb_spec, H. cbn [SFeqb SFcompare].
  rewrite (SF_is_nan w H). exact H.
Qed.

Lemma get_fighting_skill_nan (c : Boxer) (skill : float) :
  is_nan (reach c) = true -> get_fighting_skill c = Ok skill ->
  Prim2SF skill = S754_nan.
Proof.
  intros H. unfold get_fighting_skill.
  destruct (float_of_int (weight c * _)) as [product | e]; [| discriminate].
  destruct (float_of_int _) as [modifier | e]; [| discriminate].
  intros [= <-].
  apply float_add_nan_l, float_add_nan_r, float_div_nan_l, is_nan_SF, H.
Qed.

(** X22: a boxer whose reach is not a number has a skill that is not a
    number: in a fight that reaches the draw (both skills computed),
    whoever the opponent and whatever the draw, the second entrant of the
    ring is the winner. *)
Theorem X22_fight_nan_reach_second_entrant_wins {W : Type}
    (get_random : list Z -> M W float) (update_boxer_stats : Z -> string -> M W unit)
    (libm_pow : float -> float -> float) (c1 c2 : Boxer) (skill_1 skill_2 : float)
    (w w1 : W) (r : float) :
  get_fighting_skill c1 = Ok skill_1 -> get_fighting_skill c2 = Ok skill_2 ->
  is_nan (reach c1) = true \/ is_nan (reach c2) = true ->
  get_random [] w = (Ok r, w1) ->
  fight get_random update_boxer_stats libm_pow ([c1; c2], w)
  = spec.record_outcome update_boxer_stats c2 c1 ([c1; c2], w1).
Proof.
  intros Hs1 Hs2 Hnan Hr. rewrite (fight_two_skills _ _ _ _ _ _ _ _ Hs1 Hs2), Hr.
  rewrite float_ltb_nan_r; [reflexivity |].
  unfold spec.win_probability, spec.logistic.
  apply float_div_nan_r, float_add_nan_r, float_pow_e_nan.
  rewrite FloatAxioms.opp_spec, FloatAxioms.abs_spec.
  rewrite float_sub_nan; [reflexivity |].
  destruct Hnan as [H | H]; [left | right];
    eapply get_fighting_skill_nan; eassumption.
Qed.

Lemma X22_witness :
  fight (patched_get_random draw_low) mock_update_boxer_stats pow_underflow
    ([mkBoxer 1 "Boxer One" 150 62 nan 18 "LIGHTWEIGHT"; sample_boxer2], [])
  = (Ok "Boxer Two", ([], [(2, "win"); (1, "loss")])).
Proof.
  rewrite (X22_fight_nan_reach_second_entrant_wins (patched_get_random draw_low)
             mock_update_boxer_stats pow_underflow
             (mkBoxer 1 "Boxer One" 150 62 nan 18 "LIGHTWEIGHT") sample_boxer2
             nan expected_skill2 [] [] draw_low
             ltac:(vm_compute; reflexivity) skill_sample_boxer2
             (or_introl eq_refl) eq_refl).
  vm_compute. reflexivity.
Defined.



(** ** The random provider *)


